(** * attention-mcp: response formatting, the client and the dispatcher

    A shallow embedding of [server.py] (the three formatters
    [format_search_results], [format_conversation], [format_transcript],
    and the dispatcher [call_tool] with its lazily built client) and of
    [attention_client.py] (the constructor and the three request methods).

    The formatters are duck-typed Python over decoded JSON, so the model
    works on a universe of Python values and threads Python exceptions
    through an error monad: a lookup on something that is not a dict raises
    [AttributeError], joining a non-string raises [TypeError], and so on,
    exactly where the source would. *)

From Stdlib Require Import ZArith QArith List String Ascii Bool Lia.
From Stdlib Require Import DecimalString DecimalN DecimalPos.
Import ListNotations.
Local Close Scope Q_scope.
Local Open Scope list_scope.
Local Open Scope string_scope.

(* ================================================================== *)
(** ** The Python fragment used by the source *)
(* ================================================================== *)

Module Py.

(** Exception classes that the modelled code can raise.
    [UnicodeEncodeError] is a subclass of [ValueError] in Python; it is kept
    apart here because it comes from encoding a header, not from the check
    of the credential. *)
Inductive exn : Set :=
| AttributeError
| TypeError
| ValueError
| UnicodeEncodeError
| HTTPStatusError.

Inductive result (A : Type) : Type :=
| Ok (a : A)
| Raise (e : exn).

Arguments Ok {A} a.
Arguments Raise {A} e.

Definition bind {A B : Type} (m : result A) (k : A -> result B) : result B :=
  match m with
  | Ok a => k a
  | Raise e => Raise e
  end.

Notation "x <- m ;; k" := (bind m (fun x => k))
  (at level 61, m at next level, right associativity).

Fixpoint mapM {A B : Type} (f : A -> result B) (l : list A) : result (list B) :=
  match l with
  | [] => Ok []
  | x :: r => y <- f x ;; ys <- mapM f r ;; Ok (y :: ys)
  end.

Fixpoint foldM {S A : Type} (f : S -> A -> result S) (s : S) (l : list A) : result S :=
  match l with
  | [] => Ok s
  | x :: r => s' <- f s x ;; foldM f s' r
  end.

(** Values produced by [json.loads].  A [str] is a sequence of code points;
    the model covers the code points below 256, one [ascii] each.  A [float]
    is represented by the rational it denotes (NaN and the infinities, which
    are not JSON, are outside the model).  A [dict] keeps insertion order and
    is an association list; [lookup] reads the first binding of a key. *)
#[warnings="-register-all"]
Inductive value : Type :=
| VNone
| VBool (b : bool)
| VInt (n : Z)
| VFloat (q : Q)
| VStr (s : string)
| VList (l : list value)
| VDict (d : list (string * value)).

(** [datetime.datetime], as far as [strftime] reads it. *)
Record datetime : Set := mkDatetime {
  year : N;
  month : N;
  day : N;
  hour : N;
  minute : N;
  second : N;
  microsecond : N;
  utcoffset : option Z
}.

(** The ranges every [datetime] object keeps ([MINYEAR] to [MAXYEAR], and
    so on), for the fields [strftime] prints here. *)
Definition datetime_in_range (dt : datetime) : bool :=
  ((1 <=? year dt) && (year dt <=? 9999)
   && (1 <=? month dt) && (month dt <=? 12)
   && (1 <=? day dt) && (day dt <=? 31)
   && (hour dt <=? 23) && (minute dt <=? 59))%N.

(** Library functions of the Python runtime that the source calls and that
    are not reproduced here: [datetime.fromisoformat] ([None] stands for the
    [ValueError] it raises on a string it rejects; what it returns is a
    [datetime], so within range), [repr] of a float, and
    [json.dumps(_, indent=2)]. *)
Class PyLib : Type := {
  fromisoformat : string -> option datetime;
  fromisoformat_range :
    forall s dt, fromisoformat s = Some dt -> datetime_in_range dt = true;
  float_repr : Q -> string;
  json_dumps : value -> string
}.

(** *** Truth value, equality, ordering *)

Definition truthy (v : value) : bool :=
  match v with
  | VNone => false
  | VBool b => b
  | VInt n => negb (n =? 0)%Z
  | VFloat q => negb (Qeq_bool q 0)
  | VStr s => negb (s =? "")
  | VList l => match l with [] => false | _ :: _ => true end
  | VDict d => match d with [] => false | _ :: _ => true end
  end.

Fixpoint lookup (k : string) (d : list (string * value)) : option value :=
  match d with
  | [] => None
  | (k', v) :: r => if k' =? k then Some v else lookup k r
  end.

(** [bool], [int] and [float] compare by numeric value. *)
Definition num_of (v : value) : option Q :=
  match v with
  | VBool b => Some (inject_Z (if b then 1 else 0))
  | VInt n => Some (inject_Z n)
  | VFloat q => Some q
  | _ => None
  end.

(** The [==] operator. *)
Fixpoint py_eq (a b : value) {struct a} : bool :=
  match a, b with
  | VNone, VNone => true
  | VStr s, VStr t => (s =? t)
  | VList l, VList m =>
      (fix all2 (l m : list value) : bool :=
         match l, m with
         | [], [] => true
         | x :: l', y :: m' => py_eq x y && all2 l' m'
         | _, _ => false
         end) l m
  | VDict d, VDict e =>
      (List.length d =? List.length e)%nat &&
      (fix sub (d : list (string * value)) : bool :=
         match d with
         | [] => true
         | (k, v) :: d' =>
             match lookup k e with
             | Some w => py_eq v w
             | None => false
             end && sub d'
         end) d
  | _, _ =>
      match num_of a, num_of b with
      | Some x, Some y => Qeq_bool x y
      | _, _ => false
      end
  end.

(** [v > k] for an [int] literal [k]; ordering a non-number against an
    [int] raises [TypeError]. *)
Definition py_gt_int (v : value) (k : Z) : result bool :=
  match num_of v with
  | Some x => Ok (negb (Qle_bool x (inject_Z k)))
  | None => Raise TypeError
  end.

(** *** Attribute access, [len], iteration, slicing *)

(** Looking up the method [get] or [items] succeeds on a dict only. *)
Definition as_dict (v : value) : result (list (string * value)) :=
  match v with
  | VDict d => Ok d
  | _ => Raise AttributeError
  end.

Definition dget (d : list (string * value)) (k : string) (dflt : value) : value :=
  match lookup k d with
  | Some v => v
  | None => dflt
  end.

(** [v.get(k, dflt)] *)
Definition py_get (v : value) (k : string) (dflt : value) : result value :=
  d <- as_dict v ;; Ok (dget d k dflt).

Definition py_len (v : value) : result Z :=
  match v with
  | VStr s => Ok (Z.of_nat (String.length s))
  | VList l => Ok (Z.of_nat (List.length l))
  | VDict d => Ok (Z.of_nat (List.length d))
  | _ => Raise TypeError
  end.

(** Iterating a list gives its items, a str its characters, a dict its keys. *)
Definition py_iter (v : value) : result (list value) :=
  match v with
  | VList l => Ok l
  | VStr s => Ok (map (fun c => VStr (String c "")) (list_ascii_of_string s))
  | VDict d => Ok (map (fun kv => VStr (fst kv)) d)
  | _ => Raise TypeError
  end.

(** [v[:n]].  Slicing a dict raises [TypeError] up to Python 3.11 (a slice is
    unhashable there). *)
Definition py_slice_to (n : nat) (v : value) : result value :=
  match v with
  | VList l => Ok (VList (firstn n l))
  | VStr s => Ok (VStr (substring 0 n s))
  | _ => Raise TypeError
  end.

(** [sep.join(items)] first collects the items, then refuses a non-str. *)
Definition as_str (v : value) : result string :=
  match v with
  | VStr s => Ok s
  | _ => Raise TypeError
  end.

Definition py_join (sep : string) (items : list value) : result string :=
  strs <- mapM as_str items ;; Ok (String.concat sep strs).

(** *** Strings *)

Definition nl : string := String "010"%char "".

(** [s.replace(old, new)] for a one-character [old]. *)
Fixpoint replace (old : ascii) (new : string) (s : string) : string :=
  match s with
  | EmptyString => EmptyString
  | String c r =>
      if Ascii.eqb c old then new ++ replace old new r
      else String c (replace old new r)
  end.

(** [str.isspace] on the code points below 256. *)
Definition is_space (c : ascii) : bool :=
  let n := nat_of_ascii c in
  ((9 <=? n) && (n <=? 13) || (28 <=? n) && (n <=? 32)
   || (n =? 133) || (n =? 160))%nat.

Fixpoint lstrip_chars (l : list ascii) : list ascii :=
  match l with
  | [] => []
  | c :: r => if is_space c then lstrip_chars r else l
  end.

(** [s.strip()] *)
Definition strip (s : string) : string :=
  string_of_list_ascii
    (rev (lstrip_chars (rev (lstrip_chars (list_ascii_of_string s))))).

Definition str_of_Z (n : Z) : string := NilZero.string_of_int (Z.to_int n).

(** [s.isascii()]: every code point is below 128. *)
Fixpoint is_ascii (s : string) : bool :=
  match s with
  | EmptyString => true
  | String c r => (nat_of_ascii c <? 128)%nat && is_ascii r
  end.

(** *** [repr] and [str] *)

Definition hex_digit (n : nat) : ascii :=
  nth n ["0"; "1"; "2"; "3"; "4"; "5"; "6"; "7";
         "8"; "9"; "a"; "b"; "c"; "d"; "e"; "f"]%char "0"%char.

Definition is_printable (c : ascii) : bool :=
  let n := nat_of_ascii c in
  ((32 <=? n) && (n <? 127) || (161 <=? n) && negb (n =? 173))%nat.

Fixpoint contains (c : ascii) (s : string) : bool :=
  match s with
  | EmptyString => false
  | String c' r => Ascii.eqb c' c || contains c r
  end.

Definition squote : ascii := "039"%char.
Definition dquote : ascii := "034"%char.
Definition backslash : ascii := "092"%char.

Definition repr_char (quote c : ascii) : string :=
  let n := nat_of_ascii c in
  if Ascii.eqb c quote || Ascii.eqb c backslash then String backslash (String c "")
  else if (n =? 9)%nat then String backslash "t"
  else if (n =? 10)%nat then String backslash "n"
  else if (n =? 13)%nat then String backslash "r"
  else if is_printable c then String c ""
  else String backslash
         (String "x" (String (hex_digit (n / 16)) (String (hex_digit (n mod 16)) ""))).

Fixpoint repr_chars (quote : ascii) (s : string) : string :=
  match s with
  | EmptyString => EmptyString
  | String c r => repr_char quote c ++ repr_chars quote r
  end.

(** [repr] of a str: single quotes, unless the text has a single quote and
    no double quote. *)
Definition repr_str (s : string) : string :=
  let quote := if contains squote s && negb (contains dquote s) then dquote else squote in
  String quote (repr_chars quote s ++ String quote "").

Section WithLib.
Context {L : PyLib}.

Fixpoint py_repr (v : value) : string :=
  match v with
  | VNone => "None"
  | VBool true => "True"
  | VBool false => "False"
  | VInt n => str_of_Z n
  | VFloat q => float_repr q
  | VStr s => repr_str s
  | VList l => "[" ++ String.concat ", " (map py_repr l) ++ "]"
  | VDict d =>
      "{" ++ String.concat ", "
               (map (fun kv : string * value => let (k, x) := kv in repr_str k ++ ": " ++ py_repr x) d)
          ++ "}"
  end.

(** What an f-string field [{v}] renders. *)
Definition py_str (v : value) : string :=
  match v with
  | VStr s => s
  | _ => py_repr v
  end.

End WithLib.

(** *** [datetime.strftime("%Y-%m-%d %H:%M")] *)

Definition digit_char (d : N) : ascii := ascii_of_N (48 + d).

(** The last [width] decimal digits of [n], most significant first. *)
Fixpoint fixed_digits (width : nat) (n : N) : string :=
  match width with
  | O => ""
  | S w => fixed_digits w (n / 10) ++ String (digit_char (n mod 10)) ""
  end.

(** A field printed on at least [width] digits, zeros in front. *)
Definition zero_pad (width : nat) (n : N) : string :=
  if (n <? 10 ^ N.of_nat width)%N then fixed_digits width n
  else str_of_Z (Z.of_N n).

(** [%Y]: CPython hands the format to the C library, and glibc writes the
    year in decimal with no padding, so a year below 1000 comes out on fewer
    than four digits. *)
Definition year_text (y : N) : string := str_of_Z (Z.of_N y).

(** [%m], [%d], [%H] and [%M] are two digits each. *)
Definition strftime_ymd_hm (dt : datetime) : string :=
  year_text (year dt) ++ "-" ++ zero_pad 2 (month dt) ++ "-" ++ zero_pad 2 (day dt)
  ++ " " ++ zero_pad 2 (hour dt) ++ ":" ++ zero_pad 2 (minute dt).

(** Two decimal digits, and one decimal digit put in front of a numeral. *)
Definition two_digits (n : N) : string :=
  String (digit_char (n / 10)) (String (digit_char (n mod 10)) "").

Definition decimal_digit (d : N) (rest : Decimal.uint) : Decimal.uint :=
  match d with
  | 0 => Decimal.D0 rest | 1 => Decimal.D1 rest | 2 => Decimal.D2 rest
  | 3 => Decimal.D3 rest | 4 => Decimal.D4 rest | 5 => Decimal.D5 rest
  | 6 => Decimal.D6 rest | 7 => Decimal.D7 rest | 8 => Decimal.D8 rest
  | _ => Decimal.D9 rest
  end%N.

(** The layout [YYYY-MM-DD HH:MM]: sixteen characters, digits around the
    separators. *)
Definition is_digit (c : ascii) : bool :=
  let n := nat_of_ascii c in ((48 <=? n) && (n <=? 57))%nat.

Definition is_ymd_hm (s : string) : bool :=
  match list_ascii_of_string s with
  | [y1; y2; y3; y4; s1; m1; m2; s2; d1; d2; s3; h1; h2; s4; n1; n2] =>
      is_digit y1 && is_digit y2 && is_digit y3 && is_digit y4
      && Ascii.eqb s1 "-" && is_digit m1 && is_digit m2
      && Ascii.eqb s2 "-" && is_digit d1 && is_digit d2
      && Ascii.eqb s3 " " && is_digit h1 && is_digit h2
      && Ascii.eqb s4 ":" && is_digit n1 && is_digit n2
  | _ => false
  end.

End Py.

(* ================================================================== *)
(** ** server.py *)
(* ================================================================== *)

Module Server.
Import Py.

Section Formatters.
Context {L : PyLib}.

(** The date step, written twice in the source (in [format_search_results]
    and in [format_conversation]) with the same text:
<<
    if created:
        try:
            dt = datetime.fromisoformat(created.replace("Z", "+00:00"))
            created = dt.strftime("%Y-%m-%d %H:%M")
        except (ValueError, TypeError):
            pass
>>
    A truthy value that is not a str has no [replace]: the [AttributeError]
    is not among the caught classes. *)
Definition format_date (created : value) : result value :=
  if truthy created then
    match created with
    | VStr s =>
        match fromisoformat (replace "Z" "+00:00" s) with
        | Some dt => Ok (VStr (strftime_ymd_hm dt))
        | None => Ok created
        end
    | _ => Raise AttributeError
    end
  else Ok created.

(** [p.get("name") or p.get("email", "Unknown")] *)
Definition display_name (p : value) : result value :=
  name <- py_get p "name" VNone ;;
  if truthy name then Ok name else py_get p "email" (VStr "Unknown").

(** *** format_search_results *)

(** The participants text of one summary. *)
Definition participant_str (participants : value) : result string :=
  first3 <- py_slice_to 3 participants ;;
  ps <- py_iter first3 ;;
  participant_names <- mapM display_name ps ;;
  joined <- py_join ", " participant_names ;;
  n <- py_len participants ;;
  Ok (if (3 <? n)%Z then joined ++ " (+" ++ str_of_Z (n - 3) ++ " more)" else joined).

(** The body of the loop over [data]: the five lines of one conversation. *)
Definition summary_lines (conv : value) : result (list string) :=
  attrs <- py_get conv "attributes" (VDict []) ;;
  c <- as_dict conv ;;
  a <- as_dict attrs ;;
  let conv_id := dget c "id" (dget a "uuid" (VStr "unknown")) in
  let title := dget a "title" (VStr "Untitled") in
  created <- format_date (dget a "createdAt" (VStr "")) ;;
  pstr <- participant_str (dget a "participants" (VList [])) ;;
  Ok [ "- **" ++ py_str title ++ "**";
       "  ID: " ++ py_str conv_id;
       "  Date: " ++ py_str created;
       "  Participants: " ++ pstr;
       "" ].

Definition no_conversations : string := "No conversations found.".

Definition format_search_results (result : value) : Py.result string :=
  data <- py_get result "data" (VList []) ;;
  meta <- py_get result "meta" (VDict []) ;;
  if negb (truthy data) then Ok no_conversations
  else
    m <- as_dict meta ;;
    n <- py_len data ;;
    let header :=
      "Found " ++ py_str (dget m "totalRecords" (VInt n)) ++ " conversations:" ++ nl in
    convs <- py_iter data ;;
    blocks <- mapM summary_lines convs ;;
    paged <- py_gt_int (dget m "pageCount" (VInt 1)) 1 ;;
    let footer :=
      if paged
      then [ nl ++ "Page " ++ py_str (dget m "pageNumber" (VInt 1))
                ++ " of " ++ py_str (dget m "pageCount" VNone) ]
      else [] in
    Ok (String.concat nl (header :: List.concat blocks ++ footer)).

(** *** format_transcript *)

Definition placeholder : string := "*No transcript available*".

(** What the loop reads off one segment before it decides anything: the
    resolved speaker name and the trimmed text of the words. *)
Definition segment_view (segment : value) : result (value * string) :=
  speaker_info <- py_get segment "speaker" (VDict []) ;;
  speaker_name <- display_name speaker_info ;;
  words <- py_get segment "words" (VList []) ;;
  ws <- py_iter words ;;
  texts <- mapM (fun w => py_get w "text" (VStr "")) ws ;;
  joined <- py_join "" texts ;;
  Ok (speaker_name, strip joined).

(** The three locals of the list branch. *)
Record loop_state : Type := mkState {
  lines : list string;
  current_speaker : value;
  current_text : list string
}.

Definition initial_state : loop_state := mkState [] VNone [].

Definition turn_line (speaker : value) (texts : list string) : string :=
  "**" ++ py_str speaker ++ ":** " ++ String.concat " " texts.

(** [if current_speaker and current_text: lines.append(...)] *)
Definition flush (st : loop_state) : list string :=
  if truthy (current_speaker st)
     && match current_text st with [] => false | _ :: _ => true end
  then lines st ++ [turn_line (current_speaker st) (current_text st)]
  else lines st.

(** The rest of the loop body, once the segment has been read: skip an empty
    text, extend the current turn on an equal speaker, else close the
    current turn and open the next. *)
Definition advance (st : loop_state) (sv : value * string) : loop_state :=
  let (speaker_name, segment_text) := sv in
  if segment_text =? "" then st
  else if py_eq speaker_name (current_speaker st)
  then mkState (lines st) (current_speaker st) (current_text st ++ [segment_text])
  else mkState (flush st) speaker_name [segment_text].

Definition segment_step (st : loop_state) (segment : value) : result loop_state :=
  sv <- segment_view segment ;; Ok (advance st sv).

Definition join_turns (ls : list string) : string :=
  match ls with
  | [] => placeholder
  | _ :: _ => String.concat (nl ++ nl) ls
  end.

Definition format_transcript (transcript : value) : result value :=
  if negb (truthy transcript) then Ok (VStr placeholder)
  else
    match transcript with
    | VStr _ => Ok transcript
    | VList segments =>
        st <- foldM segment_step initial_state segments ;;
        Ok (VStr (join_turns (flush st)))
    | VDict d =>
        match lookup "text" d with
        | Some text => Ok text
        | None =>
            match lookup "segments" d with
            | Some segments =>
                segs <- py_iter segments ;;
                ls <- mapM (fun seg =>
                              speaker <- py_get seg "speaker" (VStr "Unknown") ;;
                              text <- py_get seg "text" (VStr "") ;;
                              Ok ("**" ++ py_str speaker ++ ":** " ++ py_str text)) segs ;;
                Ok (VStr (String.concat (nl ++ nl) ls))
            | None => Ok (VStr (json_dumps transcript))
            end
        end
    | _ => Ok (VStr (py_str transcript))
    end.

(** *** Turns, as the specification words them

    The second reading of the list branch, written from the specification
    and compared with the loop above: drop the segments whose text is empty,
    cut what is left into maximal runs of consecutive segments whose speaker
    equals the speaker the run started with, and render each run as one
    turn. *)

Definition nonempty_views (vs : list (value * string)) : list (value * string) :=
  filter (fun v => negb (snd v =? "")) vs.

(** The runs of [vs], the first one continuing a run already open for
    [speaker] with [texts]. *)
Fixpoint turns_from (speaker : value) (texts : list string)
    (vs : list (value * string)) : list (value * list string) :=
  match vs with
  | [] => [(speaker, texts)]
  | (sp, t) :: rest =>
      if py_eq sp speaker then turns_from speaker (texts ++ [t]) rest
      else (speaker, texts) :: turns_from sp [t] rest
  end.

Definition turns (vs : list (value * string)) : list (value * list string) :=
  match vs with
  | [] => []
  | (sp, t) :: rest => turns_from sp [t] rest
  end.

Definition render_turns (ts : list (value * list string)) : string :=
  join_turns (map (fun turn => turn_line (fst turn) (snd turn)) ts).

(** A run of views and the turn it makes: the speaker of its first view, and
    the texts of all its views.  In a well-formed run every later view has a
    speaker equal to the first one. *)
Definition head_speaker (run : list (value * string)) : value :=
  match run with
  | [] => VNone
  | (sp, _) :: _ => sp
  end.

Definition turn_of_run (run : list (value * string)) : value * list string :=
  (head_speaker run, map snd run).

Definition run_ok (run : list (value * string)) : Prop :=
  run <> [] /\ Forall (fun v => py_eq (fst v) (head_speaker run) = true) (tl run).

(** No turn is headed by a speaker equal to the one of the turn before. *)
Fixpoint adjacent_differ (ts : list (value * list string)) : Prop :=
  match ts with
  | [] => True
  | turn :: rest =>
      match rest with
      | [] => True
      | next :: _ => py_eq (fst next) (fst turn) = false
      end /\ adjacent_differ rest
  end.

(** A turn the loop appends: truthy speaker, some text. *)
Definition emitted (turn : value * list string) : bool :=
  truthy (fst turn) && match snd turn with [] => false | _ :: _ => true end.

(** A segment that can be read and whose trimmed text is empty. *)
Definition is_blank (segment : value) : bool :=
  match segment_view segment with
  | Ok (_, text) => text =? ""
  | Raise _ => false
  end.

(** *** format_conversation *)

(** Attributes at the top level, else under ["data"]. *)
Definition detail_attrs (result : value) : Py.result value :=
  attrs <- py_get result "attributes" (VDict []) ;;
  if negb (truthy attrs)
  then data <- py_get result "data" (VDict []) ;; py_get data "attributes" (VDict [])
  else Ok attrs.

Definition participant_line (p : value) : result value :=
  name <- display_name p ;;
  email <- py_get p "email" (VStr "") ;;
  if truthy email && negb (py_eq name email)
  then Ok (VStr ("  - " ++ py_str name ++ " (" ++ py_str email ++ ")"))
  else Ok (VStr ("  - " ++ py_str name)).

(** [confirmedExtractedIntelligence] when truthy, else [extractedIntelligence]. *)
Definition chosen_intelligence (a : list (string * value)) : value :=
  let confirmed := dget a "confirmedExtractedIntelligence" (VDict []) in
  if truthy confirmed then confirmed else dget a "extractedIntelligence" (VDict []).

(** The lines one [(key, item)] entry adds to [intel_lines]. *)
Definition intel_entry (key : string) (item : value) : list value :=
  match item with
  | VDict d =>
      let intel_title := dget d "title" (VStr key) in
      let intel_value := dget d "value" (VStr "") in
      if truthy intel_value
      then [VStr ("### " ++ py_str intel_title); intel_value; VStr ""]
      else []
  | _ =>
      if truthy item then [VStr ("  - " ++ key ++ ": " ++ py_str item)] else []
  end.

Definition intel_lines (intelligence : value) : result (list value) :=
  if truthy intelligence
  then d <- as_dict intelligence ;;
       Ok (flat_map (fun kv : string * value => intel_entry (fst kv) (snd kv)) d)
  else Ok [].

Definition intel_heading : string := "## Extracted Intelligence".

(** [if intel_lines: ...] *)
Definition intel_section (il : list value) : list value :=
  match il with
  | [] => []
  | _ :: _ => VStr "" :: VStr intel_heading :: il
  end.

(** The seven lines [lines] starts with. *)
Definition detail_header (title conv_id created video_status : value) : list value :=
  [ VStr ("# " ++ py_str title);
    VStr "";
    VStr ("**ID:** " ++ py_str conv_id);
    VStr ("**Date:** " ++ py_str created);
    VStr ("**Video Status:** " ++ py_str video_status);
    VStr "";
    VStr "## Participants" ].

(** The list [lines] as it stands just before the final join.  The value
    text of an intelligence block and the transcript text are appended as
    they are, whatever their type. *)
Definition conversation_lines (result : value) : Py.result (list value) :=
  attrs <- detail_attrs result ;;
  a <- as_dict attrs ;;
  r <- as_dict result ;;
  let conv_id := dget a "uuid" (dget r "id" (VStr "unknown")) in
  let title := dget a "title" (VStr "Untitled") in
  created <- format_date (dget a "createdAt" (VStr "")) ;;
  ps <- py_iter (dget a "participants" (VList [])) ;;
  participant_lines <- mapM participant_line ps ;;
  transcript_text <- format_transcript (dget a "transcript" (VDict [])) ;;
  il <- intel_lines (chosen_intelligence a) ;;
  Ok (detail_header title conv_id created (dget a "videoStatus" (VStr "Unknown"))
      ++ participant_lines
      ++ intel_section il
      ++ [ VStr ""; VStr "## Transcript"; VStr ""; transcript_text ])%list.

Definition format_conversation (result : value) : Py.result string :=
  ls <- conversation_lines result ;; py_join nl ls.

End Formatters.
End Server.

(* ================================================================== *)
(** ** attention_client.py *)
(* ================================================================== *)

Module AttentionClient.
Import Py.

Definition BASE_URL : string := "https://api.attention.tech/v2".

(** The configured [httpx.Client]; building one opens no connection. *)
Record httpx_client : Set := mkHttpx {
  base_url : string;
  headers : list (string * string);
  timeout : Z
}.

(** [self] after [__init__]. *)
Record t : Set := mkClient {
  api_key : string;
  client : httpx_client
}.

(** A GET request put on the wire. *)
Record request : Set := mkRequest {
  path : string;
  params : list (string * string)
}.

(** What the client can observe and change outside itself: the process
    environment, and the requests it has sent so far. *)
Record world : Set := mkWorld {
  environ : list (string * string);
  sent : list request
}.

Fixpoint getenv (k : string) (env : list (string * string)) : option string :=
  match env with
  | [] => None
  | (k', v) :: r => if k' =? k then Some v else getenv k r
  end.

(** Truth value of an [Optional[str]]. *)
Definition opt_truthy (o : option string) : bool :=
  match o with
  | Some s => negb (s =? "")
  | None => false
  end.

(** [httpx.Client(base_url=..., headers=..., timeout=...)]: the header
    names and values are encoded as ASCII when the client is built, so a
    header that holds another code point raises [UnicodeEncodeError]. *)
Definition new_httpx_client (url : string) (hs : list (string * string)) (secs : Z)
  : result httpx_client :=
  if forallb (fun h => is_ascii (fst h) && is_ascii (snd h)) hs
  then Ok (mkHttpx url hs secs)
  else Raise UnicodeEncodeError.

(** [AttentionClient.__init__] *)
Definition init (key : option string) (w : world) : result t * world :=
  let chosen := if opt_truthy key then key else getenv "ATTENTION_API_KEY" (environ w) in
  match chosen with
  | Some k =>
      if negb (k =? "")
      then (bind (new_httpx_client BASE_URL
                    [("Authorization", "Bearer " ++ k);
                     ("Content-Type", "application/json")]
                    30)
                 (fun c => Ok (mkClient k c)), w)
      else (Raise ValueError, w)
  | None => (Raise ValueError, w)
  end.

Section Transport.
(** The upstream service: the decoded body of a 2xx answer, or the error
    [raise_for_status] raises. *)
Variable upstream : request -> result value.

(** [self.client.get(path, params=params)], [raise_for_status()], [json()] *)
Definition http_get (self : t) (rq : request) (w : world) : result value * world :=
  (upstream rq, mkWorld (environ w) (sent w ++ [rq])).

Definition lower_bool (b : bool) : string := if b then "true" else "false".

Definition get_conversation (self : t) (conversation_id : string)
    (detailed_transcript include_internal_participants : bool) (w : world)
  : result value * world :=
  http_get self
    (mkRequest ("/conversations/" ++ conversation_id)
       [("detailedTranscript", lower_bool detailed_transcript);
        ("filter[include_internal_participants]",
         lower_bool include_internal_participants)])
    w.

End Transport.
End AttentionClient.

(** A runtime to evaluate the model on concrete inputs.  Its date parser
    reads the layout [YYYY-MM-DDTHH:MM:SS+00:00], which every version of
    [fromisoformat] accepts, and nothing else; its float and JSON printers
    are constants, and no input below reaches them. *)
Module Sample.
Import Py.

Definition digit (c : ascii) : option N :=
  let n := N_of_ascii c in
  if ((48 <=? n) && (n <=? 57))%N then Some (n - 48)%N else None.

Fixpoint number (acc : N) (l : list ascii) : option N :=
  match l with
  | [] => Some acc
  | c :: r => match digit c with
              | Some d => number (10 * acc + d)%N r
              | None => None
              end
  end.

Definition field (s : string) (start len : nat) : option N :=
  match list_ascii_of_string (substring start len s) with
  | [] => None
  | l => number 0 l
  end.

Definition in_range (lo hi : N) (o : option N) : option N :=
  match o with
  | Some n => if ((lo <=? n) && (n <=? hi))%N then Some n else None
  | None => None
  end.

Definition parse_utc_seconds (s : string) : option datetime :=
  if (String.length s =? 25)%nat
     && (substring 4 1 s =? "-") && (substring 7 1 s =? "-")
     && (substring 10 1 s =? "T") && (substring 13 1 s =? ":")
     && (substring 16 1 s =? ":") && (substring 19 6 s =? "+00:00")
  then
    match in_range 1 9999 (field s 0 4), in_range 1 12 (field s 5 2),
          in_range 1 28 (field s 8 2), in_range 0 23 (field s 11 2),
          in_range 0 59 (field s 14 2), in_range 0 59 (field s 17 2) with
    | Some y, Some mo, Some d, Some h, Some mi, Some sec =>
        Some (mkDatetime y mo d h mi sec 0 (Some 0%Z))
    | _, _, _, _, _, _ => None
    end
  else None.

Lemma in_range_ok (lo hi : N) (o : option N) (n : N) :
  in_range lo hi o = Some n -> (lo <= n <= hi)%N.
Proof.
  destruct o as [m |]; simpl; [| discriminate].
  destruct ((lo <=? m) && (m <=? hi))%N eqn:E; [| discriminate].
  intros H; injection H as <-.
  apply andb_prop in E. destruct E as [E1 E2].
  apply N.leb_le in E1, E2. split; assumption.
Qed.

Lemma parse_utc_seconds_range (s : string) (dt : datetime) :
  parse_utc_seconds s = Some dt -> datetime_in_range dt = true.
Proof.
  unfold parse_utc_seconds.
  destruct (_ && _); [| discriminate].
  destruct (in_range 1 9999 _) as [y |] eqn:Hy; [| discriminate].
  destruct (in_range 1 12 _) as [mo |] eqn:Hmo; [| discriminate].
  destruct (in_range 1 28 _) as [d |] eqn:Hd; [| discriminate].
  destruct (in_range 0 23 _) as [h |] eqn:Hh; [| discriminate].
  destruct (in_range 0 59 (field s 14 2)) as [mi |] eqn:Hmi; [| discriminate].
  destruct (in_range 0 59 (field s 17 2)) as [sec |]; [| discriminate].
  intros H; injection H as <-.
  apply in_range_ok in Hy, Hmo, Hd, Hh, Hmi.
  unfold datetime_in_range; simpl.
  repeat (apply andb_true_intro; split); apply N.leb_le; lia.
Qed.

Definition lib : PyLib := {|
  fromisoformat := parse_utc_seconds;
  fromisoformat_range := parse_utc_seconds_range;
  float_repr := fun _ => "0.0";
  json_dumps := fun _ => "{}"
|}.

End Sample.

(* ================================================================== *)
(** ** attention_client.py: the request methods *)
(* ================================================================== *)

(** The methods take what the dispatcher hands them, which is whatever the
    caller put in its argument bag, so their arguments are Python values; a
    missing optional argument is [None]. *)
Module Methods.
Import Py.

(** What a method or the dispatcher can raise: the classes of [Py.exn],
    [KeyError] with its key, and the [OverflowError] of date arithmetic. *)
Inductive raised : Type :=
| PyExn (e : exn)
| KeyError (key : string)
| OverflowError.

Inductive attempt (A : Type) : Type :=
| Done (a : A)
| Failed (e : raised).

Arguments Done {A} a.
Arguments Failed {A} e.

(** One call [self.client.get(url, params=query)]: the configured client it
    goes through, the path, and the parameter dict as the method built it. *)
Record get_call : Type := mkCall {
  via : AttentionClient.httpx_client;
  url : string;
  query : list (string * value)
}.

(** [str.lower] on the code points below 256. *)
Definition lower_char (c : ascii) : ascii :=
  let n := nat_of_ascii c in
  if ((65 <=? n) && (n <=? 90) || (192 <=? n) && (n <=? 214)
      || (216 <=? n) && (n <=? 222))%nat
  then ascii_of_nat (n + 32)
  else c.

Fixpoint lower (s : string) : string :=
  match s with
  | EmptyString => EmptyString
  | String c r => String (lower_char c) (lower r)
  end.

(** [datetime.strftime("%Y-%m-%d")]: the year unpadded, as in
    [strftime_ymd_hm]. *)
Definition strftime_ymd (dt : datetime) : string :=
  year_text (year dt) ++ "-" ++ zero_pad 2 (month dt) ++ "-" ++ zero_pad 2 (day dt).

(** The clock as one call of [list_recent_conversations] sees it: the two
    readings of [datetime.now()], and [dt - timedelta(days=n)], which raises
    [TypeError] on a value that is no number of days and [OverflowError]
    out of range. *)
Record clock : Type := mkClock {
  now_first : datetime;
  now_second : datetime;
  minus_days : datetime -> value -> attempt datetime
}.

Section Requests.
Context {L : PyLib}.

(** The upstream service, given the calls made so far and the call at hand:
    the decoded body of a 2xx answer, or what the transport or
    [raise_for_status] raises. *)
Variable upstream : list get_call -> get_call -> result value.

(** [response = self.client.get(path, params=params)],
    [response.raise_for_status()], [return response.json()] *)
Definition client_get (self : AttentionClient.t) (path : string)
    (params : list (string * value)) (log : list get_call)
  : attempt value * list get_call :=
  let call := mkCall (AttentionClient.client self) path params in
  (match upstream log call with
   | Ok body => Done body
   | Raise e => Failed (PyExn e)
   end,
   (log ++ [call])%list).

(** [str(flag).lower()] *)
Definition flag_text (flag : value) : value := VStr (lower (py_str flag)).

Definition search_conversations (self : AttentionClient.t)
    (query from_date to_date participant_email owner_email page size
       detailed_transcript : value)
    (log : list get_call) : attempt value * list get_call :=
  let params :=
    ([ ("page", page);
       ("size", size);
       ("detailedTranscript", flag_text detailed_transcript) ]
     ++ (if truthy query then [("filter[title]", query)] else [])
     ++ (if truthy from_date
         then [("fromDateTime", VStr (py_str from_date ++ "T00:00:00Z"))] else [])
     ++ (if truthy to_date
         then [("toDateTime", VStr (py_str to_date ++ "T23:59:59Z"))] else [])
     ++ (if truthy participant_email
         then [("filter[participants.email]", participant_email)] else [])
     ++ (if truthy owner_email
         then [("filter[owner.email]", owner_email)] else []))%list in
  client_get self "/conversations" params log.

Definition get_conversation (self : AttentionClient.t)
    (conversation_id detailed_transcript include_internal_participants : value)
    (log : list get_call) : attempt value * list get_call :=
  client_get self ("/conversations/" ++ py_str conversation_id)
    [ ("detailedTranscript", flag_text detailed_transcript);
      ("filter[include_internal_participants]",
       flag_text include_internal_participants) ]
    log.

Definition list_recent_conversations (now : clock) (self : AttentionClient.t)
    (days_back size : value) (log : list get_call)
  : attempt value * list get_call :=
  match minus_days now (now_first now) days_back with
  | Failed e => (Failed e, log)
  | Done start =>
      let from_date := strftime_ymd start in
      let to_date := strftime_ymd (now_second now) in
      search_conversations self VNone (VStr from_date) (VStr to_date) VNone VNone
        (VInt 1) size (VBool false) log
  end.

End Requests.
End Methods.

(* ================================================================== *)
(** ** server.py: the dispatcher *)
(* ================================================================== *)

Module Dispatch.
Import Py Methods.

(** The module-level [_client], the process environment, and the calls made
    so far. *)
Record state : Type := mkServer {
  _client : option AttentionClient.t;
  environ : list (string * string);
  calls : list get_call
}.

(** The single [TextContent] a call returns.  [Error e] stands for the text
    "Error: " followed by [str(e)]: the model keeps the exception in place
    of its message. *)
Inductive reply : Type :=
| Text (text : string)
| Error (e : raised).

(** [get_client]: build the client on first use, keep it afterwards. *)
Definition get_client (st : state) : attempt AttentionClient.t * state :=
  match _client st with
  | Some c => (Done c, st)
  | None =>
      match fst (AttentionClient.init None
                   (AttentionClient.mkWorld (environ st) [])) with
      | Ok c => (Done c, mkServer (Some c) (environ st) (calls st))
      | Raise e => (Failed (PyExn e), st)
      end
  end.

Section Tools.
Context {L : PyLib}.
Variable upstream : list get_call -> get_call -> result value.
Variable now : clock.

(** What follows a client method in each branch: format what it returned. *)
Definition respond (format : value -> result string)
    (outcome : attempt value * list get_call) (st : state) : reply * state :=
  let st' := mkServer (_client st) (environ st) (snd outcome) in
  match fst outcome with
  | Failed e => (Error e, st')
  | Done result =>
      match format result with
      | Ok text => (Text text, st')
      | Raise e => (Error (PyExn e), st')
      end
  end.

(** [call_tool]; the [logger.exception] of the handler is left out. *)
Definition call_tool (name : string) (arguments : list (string * value))
    (st : state) : reply * state :=
  match get_client st with
  | (Failed e, st1) => (Error e, st1)
  | (Done client, st1) =>
      if name =? "search_conversations" then
        respond Server.format_search_results
          (search_conversations upstream client
             (dget arguments "query" VNone)
             (dget arguments "from_date" VNone)
             (dget arguments "to_date" VNone)
             (dget arguments "participant_email" VNone)
             (dget arguments "owner_email" VNone)
             (VInt 1)
             (dget arguments "size" (VInt 20))
             (VBool false)
             (calls st1))
          st1
      else if name =? "get_conversation" then
        match lookup "conversation_id" arguments with
        | None => (Error (KeyError "conversation_id"), st1)
        | Some conversation_id =>
            respond Server.format_conversation
              (get_conversation upstream client conversation_id
                 (dget arguments "detailed_transcript" (VBool true))
                 (VBool false)
                 (calls st1))
              st1
        end
      else if name =? "list_recent_conversations" then
        respond Server.format_search_results
          (list_recent_conversations upstream now client
             (dget arguments "days_back" (VInt 7))
             (dget arguments "size" (VInt 20))
             (calls st1))
          st1
      else (Text ("Unknown tool: " ++ name), st1)
  end.

End Tools.
End Dispatch.

(* ================================================================== *)
(** ** Inputs the properties are evaluated on *)
(* ================================================================== *)

Import Py Server.

(** A conversation with a top-level [id] and an [attributes.uuid]. *)
Definition both_ids : value :=
  VDict [("id", VStr "top"); ("attributes", VDict [("uuid", VStr "inner")])].

(** Five participants: a name and an email, an email only, neither, and two
    names. *)
Definition five_participants : list value :=
  [ VDict [("name", VStr "Ann"); ("email", VStr "ann@x.io")];
    VDict [("email", VStr "bob@x.io")];
    VDict [];
    VDict [("name", VStr "Dee")];
    VDict [("name", VStr "Eve")] ].

(** The example of the specification. *)
Definition summary_intelligence : value :=
  VDict [("attributes",
          VDict [("extractedIntelligence",
                  VDict [("summary", VDict [("title", VStr "Summary");
                                            ("value", VStr "Good call")])])])].

(** A non-empty mapping whose only entry has an empty value. *)
Definition blank_intelligence : value :=
  VDict [("attributes",
          VDict [("extractedIntelligence",
                  VDict [("summary", VDict [("title", VStr "Summary");
                                            ("value", VStr "")])])])].

(** A confirmed mapping beside a raw one with another title and text. *)
Definition confirmed_and_raw : value :=
  VDict [("attributes",
          VDict [("extractedIntelligence",
                  VDict [("summary", VDict [("title", VStr "Draft");
                                            ("value", VStr "Raw text")])]);
                 ("confirmedExtractedIntelligence",
                  VDict [("summary", VDict [("title", VStr "Summary");
                                            ("value", VStr "Good call")])])])].

(** The lines both render to, and the lines of [blank_intelligence]. *)
Definition summary_intelligence_text : list string :=
  [ "# Untitled"; ""; "**ID:** unknown"; "**Date:** ";
    "**Video Status:** Unknown"; ""; "## Participants";
    ""; "## Extracted Intelligence";
    "### Summary"; "Good call"; "";
    ""; "## Transcript"; ""; "*No transcript available*" ].

Definition blank_intelligence_text : list string :=
  [ "# Untitled"; ""; "**ID:** unknown"; "**Date:** ";
    "**Video Status:** Unknown"; ""; "## Participants";
    ""; "## Transcript"; ""; "*No transcript available*" ].

(** A segment as the API sends it: a speaker block and a list of word
    tokens. *)
Definition segment (speaker : list (string * value)) (words : list string) : value :=
  VDict [("speaker", VDict speaker);
         ("words", VList (map (fun w => VDict [("text", VStr w)]) words))].

(** The example of the specification: A says "Hi", A says "there", B says
    "Hello". *)
Definition hi_there_hello : list value :=
  [ segment [("name", VStr "A")] ["Hi"];
    segment [("name", VStr "A")] ["there"];
    segment [("name", VStr "B")] ["Hello"] ].

(** The same turns, from segments of several word tokens with blanks around
    them, the second speaker known by email only. *)
Definition spaced_words : list value :=
  [ segment [("name", VStr "A")] ["Hi"; " "];
    segment [("name", VStr "A")] [" the"; "re"];
    segment [("email", VStr "b@x.io")] ["Hel"; "lo "; " "] ].

(** A speaker block whose only field is an empty email. *)
Definition nameless_hi : list value := [ segment [("email", VStr "")] ["Hi"] ].

(** A run of speaker A cut by a segment whose speaker has neither a name nor
    an email with text in it. *)
Definition interrupted_by_nameless : list value :=
  [ segment [("name", VStr "A")] ["Hi"];
    segment [("name", VStr ""); ("email", VStr "")] ["aside"];
    segment [("name", VStr "A")] ["there"] ].


(** A search result with one conversation and the given [meta]. *)
Definition one_summary : list value := [VDict [("id", VStr "c1")]].

Definition one_result (meta : list (string * value)) : list (string * value) :=
  [("data", VList one_summary); ("meta", VDict meta)].

Definition one_summary_block : list string :=
  [ "- **Untitled**"; "  ID: c1"; "  Date: "; "  Participants: "; "" ].

(** Three participants with names, then a fourth entry of any kind. *)
Definition three_named : list value :=
  [ VDict [("name", VStr "Ann")]; VDict [("name", VStr "Bob")];
    VDict [("name", VStr "Cy")] ].

(** A search result of two conversations, with five and with three
    participants. *)
Definition two_summaries : list (string * value) :=
  [("data",
    VList [ VDict [("attributes", VDict [("participants", VList five_participants)])];
            VDict [("attributes", VDict [("participants", VList three_named)])] ])].

(** A detail response whose transcript text is a number, and one whose
    intelligence block holds a number. *)
Definition numeric_text : value :=
  VDict [("attributes", VDict [("transcript", VDict [("text", VInt 7)])])].

Definition numeric_intelligence : value :=
  VDict [("attributes",
          VDict [("extractedIntelligence",
                  VDict [("score", VDict [("title", VStr "Score"); ("value", VInt 8)])])])].

(** A server that has built no client yet. *)
Definition idle (env : list (string * string)) : Dispatch.state :=
  Dispatch.mkServer None env [].

(** A clock that stands still and goes back no day. *)
Definition still_clock : Methods.clock :=
  Methods.mkClock (mkDatetime 2024 3 10 9 0 0 0 None) (mkDatetime 2024 3 10 9 0 0 0 None)
          (fun dt _ => Methods.Done dt).

(** A clock read on 2024-03-10 at 09:00 that knows two subtractions: 7 days
    back is 2024-03-03, and 374078 days back is 999-12-31. *)
Definition march_clock : Methods.clock :=
  Methods.mkClock (mkDatetime 2024 3 10 9 0 0 0 None) (mkDatetime 2024 3 10 9 0 0 0 None)
    (fun _ days =>
       match days with
       | VInt 7 => Methods.Done (mkDatetime 2024 3 3 9 0 0 0 None)
       | VInt 374078 => Methods.Done (mkDatetime 999 12 31 9 0 0 0 None)
       | VInt _ => Methods.Failed Methods.OverflowError
       | _ => Methods.Failed (Methods.PyExn TypeError)
       end).

(** The client [__init__] builds from a key. *)
Definition client_of (key : string) : AttentionClient.t :=
  AttentionClient.mkClient key
    (AttentionClient.mkHttpx AttentionClient.BASE_URL
       [("Authorization", "Bearer " ++ key); ("Content-Type", "application/json")] 30).

(** What a method adds to the log: at most one call, through its client. *)
Definition one_call_through (c : AttentionClient.t) (log log' : list Methods.get_call) : Prop :=
  exists new,
    log' = (log ++ new)%list
    /\ (List.length new <= 1)%nat
    /\ Forall (fun call => Methods.via call = AttentionClient.client c) new.

(* ================================================================== *)
(** ** Properties *)
(* ================================================================== *)

(** *** The error monad *)

Lemma bind_ok {A B : Type} (m : result A) (k : A -> result B) (b : B) :
  bind m k = Ok b -> exists a, m = Ok a /\ k a = Ok b.
Proof.
  destruct m as [a | e]; simpl; intros H.
  - exists a; split; [reflexivity | exact H].
  - discriminate H.
Qed.

Tactic Notation "bind_inv" hyp(H) "as" ident(x) ident(Hx) :=
  apply bind_ok in H; destruct H as (x & Hx & H).

Lemma as_dict_ok (v : value) (d : list (string * value)) :
  as_dict v = Ok d -> v = VDict d.
Proof.
  destruct v; simpl; intros H; try discriminate H.
  injection H as <-; reflexivity.
Qed.

Lemma py_get_ok (v : value) (k : string) (dflt x : value) :
  py_get v k dflt = Ok x -> exists d, v = VDict d /\ x = dget d k dflt.
Proof.
  unfold py_get. intros H. bind_inv H as d Hd. injection H as <-.
  exists d. split; [now apply as_dict_ok | reflexivity].
Qed.

(** *** format_transcript on a string *)

(** C2 (as amended).  On a non-empty string the transcript formatter returns
    the string itself; on the empty string it returns the placeholder, since
    the falsy test comes first.  Formatting the result again changes nothing,
    for every string. *)
Theorem format_transcript_string {L : PyLib} (s : string) :
  format_transcript (VStr s) = Ok (VStr (if s =? "" then placeholder else s))
  /\ bind (format_transcript (VStr s)) format_transcript = format_transcript (VStr s).
Proof.
  assert (E : format_transcript (VStr s)
              = Ok (VStr (if s =? "" then placeholder else s))).
  { unfold format_transcript; simpl. destruct (s =? ""); reflexivity. }
  split; [exact E |].
  rewrite E; simpl.
  destruct (s =? "") eqn:Hs.
  - reflexivity.
  - unfold format_transcript; simpl. rewrite Hs. reflexivity.
Qed.

(** The empty string is a string input that does not come back unchanged. *)
Lemma format_transcript_empty_string_not_verbatim :
  ~ (forall s : string, format_transcript (L := Sample.lib) (VStr s) = Ok (VStr s)).
Proof.
  intros H. specialize (H ""). vm_compute in H. discriminate H.
Qed.

(** *** The empty result set *)

(** C8.  When the [data] of a search result is the empty list (or is
    missing, which defaults to it), the list formatter returns exactly
    "No conversations found."; whatever [meta] holds is not looked at. *)
Theorem format_search_results_empty {L : PyLib} (r : list (string * value)) :
  dget r "data" (VList []) = VList [] ->
  format_search_results (VDict r) = Ok "No conversations found.".
Proof.
  intros H. unfold format_search_results, py_get; simpl.
  rewrite H. reflexivity.
Qed.

Lemma format_search_results_empty_witness :
  format_search_results (L := Sample.lib)
    (VDict [("data", VList []); ("meta", VInt 7)]) = Ok "No conversations found.".
Proof.
  apply (@format_search_results_empty Sample.lib
           [("data", VList []); ("meta", VInt 7)]).
  reflexivity.
Defined.

(** *** Client construction *)

(** Building the client from a non-empty key: the two headers encode when
    the key is ASCII, and not otherwise. *)
Lemma init_with_key (key : option string) (w : AttentionClient.world) (k : string) :
  k <> "" ->
  key = Some k
  \/ (AttentionClient.opt_truthy key = false
      /\ AttentionClient.getenv "ATTENTION_API_KEY" (AttentionClient.environ w) = Some k) ->
  AttentionClient.init key w
  = (if is_ascii k
     then Ok (AttentionClient.mkClient k
                (AttentionClient.mkHttpx AttentionClient.BASE_URL
                   [("Authorization", "Bearer " ++ k);
                    ("Content-Type", "application/json")] 30))
     else Raise UnicodeEncodeError, w).
Proof.
  intros Hk Hsrc. apply String.eqb_neq in Hk.
  assert (E : (if AttentionClient.opt_truthy key then key
               else AttentionClient.getenv "ATTENTION_API_KEY" (AttentionClient.environ w))
              = Some k).
  { destruct Hsrc as [-> | [Hkey Henv]].
    - unfold AttentionClient.opt_truthy. rewrite Hk. reflexivity.
    - rewrite Hkey. exact Henv. }
  unfold AttentionClient.init. rewrite E, Hk. cbn [negb].
  unfold AttentionClient.new_httpx_client.
  cbn [forallb fst snd is_ascii append nat_of_ascii Nat.ltb Nat.leb andb
       Pos.to_nat Pos.iter_op Nat.add].
  rewrite andb_true_r.
  destruct (is_ascii k); reflexivity.
Qed.

(** C9.  When neither the [api_key] argument nor [ATTENTION_API_KEY] in the
    environment holds a non-empty key (in particular when both are absent),
    construction raises [ValueError], the configuration error, and nothing
    has been sent.  With a non-empty key from either source, the argument
    first, construction does not raise that error: it succeeds with that key
    when the key is ASCII, and otherwise raises the [UnicodeEncodeError] of
    the header encoding.  Construction never sends a request. *)
Theorem init_requires_credential (key : option string) (w : AttentionClient.world) :
  (AttentionClient.opt_truthy key = false ->
   AttentionClient.opt_truthy
     (AttentionClient.getenv "ATTENTION_API_KEY" (AttentionClient.environ w)) = false ->
   AttentionClient.init key w = (Raise ValueError, w))
  /\ (key = None ->
      AttentionClient.getenv "ATTENTION_API_KEY" (AttentionClient.environ w) = None ->
      AttentionClient.init key w = (Raise ValueError, w))
  /\ (forall k, k <> "" ->
        key = Some k
        \/ (AttentionClient.opt_truthy key = false
            /\ AttentionClient.getenv "ATTENTION_API_KEY" (AttentionClient.environ w)
               = Some k) ->
        fst (AttentionClient.init key w) <> Raise ValueError
        /\ (is_ascii k = true ->
            exists c, AttentionClient.init key w = (Ok c, w)
                      /\ AttentionClient.api_key c = k
                      /\ AttentionClient.headers (AttentionClient.client c)
                         = [("Authorization", "Bearer " ++ k);
                            ("Content-Type", "application/json")])
        /\ (is_ascii k = false ->
            AttentionClient.init key w = (Raise UnicodeEncodeError, w)))
  /\ AttentionClient.sent (snd (AttentionClient.init key w)) = AttentionClient.sent w.
Proof.
  assert (Hnone : AttentionClient.opt_truthy key = false ->
                  AttentionClient.opt_truthy
                    (AttentionClient.getenv "ATTENTION_API_KEY"
                       (AttentionClient.environ w)) = false ->
                  AttentionClient.init key w = (Raise ValueError, w)).
  { intros Hkey Henv. unfold AttentionClient.init. rewrite Hkey.
    destruct (AttentionClient.getenv _ _) as [k |]; [| reflexivity].
    simpl in Henv. rewrite Henv. reflexivity. }
  split; [exact Hnone |]. split; [| split].
  - intros -> Henv. apply Hnone; [reflexivity | rewrite Henv; reflexivity].
  - intros k Hk Hsrc. rewrite (init_with_key key w k Hk Hsrc).
    split; [| split].
    + destruct (is_ascii k); discriminate.
    + intros ->. eexists. repeat split.
    + intros ->. reflexivity.
  - unfold AttentionClient.init.
    destruct (if AttentionClient.opt_truthy key then key else _) as [k |]; [| reflexivity].
    destruct (negb (k =? "")); reflexivity.
Qed.

Lemma init_requires_credential_witness :
  AttentionClient.init None (AttentionClient.mkWorld [("HOME", "/root")] [])
  = (Raise ValueError, AttentionClient.mkWorld [("HOME", "/root")] [])
  /\ AttentionClient.init (Some "") (AttentionClient.mkWorld [("ATTENTION_API_KEY", "")] [])
     = (Raise ValueError, AttentionClient.mkWorld [("ATTENTION_API_KEY", "")] [])
  /\ (exists c,
         AttentionClient.init None
           (AttentionClient.mkWorld [("ATTENTION_API_KEY", "sk-1")] [])
         = (Ok c, AttentionClient.mkWorld [("ATTENTION_API_KEY", "sk-1")] [])
         /\ AttentionClient.api_key c = "sk-1"
         /\ AttentionClient.headers (AttentionClient.client c)
            = [("Authorization", "Bearer sk-1"); ("Content-Type", "application/json")])
  /\ AttentionClient.init (Some (String "233"%char "")) (AttentionClient.mkWorld [] [])
     = (Raise UnicodeEncodeError, AttentionClient.mkWorld [] []).
Proof.
  split; [| split; [| split]].
  - apply (proj1 (proj2 (init_requires_credential None
                           (AttentionClient.mkWorld [("HOME", "/root")] []))));
      reflexivity.
  - apply (proj1 (init_requires_credential (Some "")
                    (AttentionClient.mkWorld [("ATTENTION_API_KEY", "")] [])));
      reflexivity.
  - destruct (init_requires_credential None
                (AttentionClient.mkWorld [("ATTENTION_API_KEY", "sk-1")] []))
      as (_ & _ & Hkey & _).
    destruct (Hkey "sk-1" ltac:(discriminate) (or_intror (conj eq_refl eq_refl)))
      as (_ & Hok & _).
    exact (Hok eq_refl).
  - destruct (init_requires_credential (Some (String "233"%char ""))
                (AttentionClient.mkWorld [] []))
      as (_ & _ & Hkey & _).
    destruct (Hkey (String "233"%char "") ltac:(discriminate) (or_introl eq_refl))
      as (_ & _ & Hbad).
    exact (Hbad eq_refl).
Defined.

(** A request is what changes [sent]: construction leaves it alone, a call
    on the client does not. *)
Example get_conversation_sends (upstream : AttentionClient.request -> result value)
    (c : AttentionClient.t) (w : AttentionClient.world) :
  AttentionClient.sent
    (snd (AttentionClient.get_conversation upstream c "abc" true false w))
  = (AttentionClient.sent w
     ++ [AttentionClient.mkRequest "/conversations/abc"
           [("detailedTranscript", "true");
            ("filter[include_internal_participants]", "false")]])%list.
Proof. reflexivity. Qed.

(** *** Dates *)

Lemma digit_char_is_digit (n : N) : is_digit (digit_char (n mod 10)) = true.
Proof.
  pose proof (N.mod_upper_bound n 10 ltac:(discriminate)) as Hlt.
  generalize dependent (n mod 10)%N. intros d Hlt.
  assert (H : (d = 0 \/ d = 1 \/ d = 2 \/ d = 3 \/ d = 4
               \/ d = 5 \/ d = 6 \/ d = 7 \/ d = 8 \/ d = 9)%N) by lia.
  repeat (destruct H as [-> | H]; [reflexivity |]).
  rewrite H. reflexivity.
Qed.

Lemma zero_pad_2 (n : N) :
  (n <= 99)%N -> zero_pad 2 n = two_digits n.
Proof.
  intros H. unfold zero_pad.
  replace (n <? 10 ^ N.of_nat 2)%N with true
    by (symmetry; apply N.ltb_lt; change (10 ^ N.of_nat 2)%N with 100%N; lia).
  cbn [fixed_digits append]. unfold two_digits.
  replace (n / 10 mod 10)%N with (n / 10)%N; [reflexivity |].
  symmetry. apply N.mod_small.
  apply N.Div0.div_lt_upper_bound. lia.
Qed.

Lemma two_digits_are_digits (n : N) :
  (n <= 99)%N ->
  exists c1 c2,
    two_digits n = String c1 (String c2 "") /\ is_digit c1 = true /\ is_digit c2 = true.
Proof.
  intros H. unfold two_digits. eexists _, _. split; [reflexivity |].
  split; [| apply digit_char_is_digit].
  replace (n / 10)%N with (n / 10 mod 10)%N; [apply digit_char_is_digit |].
  apply N.mod_small. apply N.Div0.div_lt_upper_bound. lia.
Qed.

Ltac digit_cases d H :=
  let C := fresh "C" in
  assert (C : (d = 0 \/ d = 1 \/ d = 2 \/ d = 3 \/ d = 4
               \/ d = 5 \/ d = 6 \/ d = 7 \/ d = 8 \/ d = 9)%N) by lia;
  clear H;
  repeat (destruct C as [-> | C]); [.. | subst d].

Lemma revapp_digit (d : N) (l l' : Decimal.uint) :
  Decimal.revapp (decimal_digit d l) l' = Decimal.revapp l (decimal_digit d l').
Proof.
  destruct d as [| p]; [reflexivity |].
  do 4 (try destruct p as [p | p |]; try reflexivity).
Qed.

Lemma of_lu_digit (d : N) (l : Decimal.uint) :
  (d < 10)%N ->
  DecimalPos.Unsigned.of_lu (decimal_digit d l)
  = (d + 10 * DecimalPos.Unsigned.of_lu l)%N.
Proof.
  intros H. digit_cases d H; rewrite DecimalPos.Unsigned.of_lu_eqn; reflexivity.
Qed.

Lemma string_of_digit (d : N) (l : Decimal.uint) :
  (d < 10)%N ->
  NilEmpty.string_of_uint (decimal_digit d l)
  = String (digit_char d) (NilEmpty.string_of_uint l).
Proof.
  intros H. digit_cases d H; reflexivity.
Qed.

(** The four decimal digits of a year from 1000 on. *)
Lemma year_digits (y : N) :
  (1000 <= y <= 9999)%N ->
  exists a b c e,
    (1 <= a < 10 /\ b < 10 /\ c < 10 /\ e < 10)%N
    /\ (y = e + 10 * (c + 10 * (b + 10 * (a + 10 * 0))))%N
    /\ a = (y / 10 / 10 / 10 mod 10)%N /\ b = (y / 10 / 10 mod 10)%N
    /\ c = (y / 10 mod 10)%N /\ e = (y mod 10)%N.
Proof.
  intros Hy.
  pose proof (N.div_mod y 10 ltac:(discriminate)) as E0.
  pose proof (N.div_mod (y / 10) 10 ltac:(discriminate)) as E1.
  pose proof (N.div_mod (y / 10 / 10) 10 ltac:(discriminate)) as E2.
  pose proof (N.mod_upper_bound y 10 ltac:(discriminate)) as B0.
  pose proof (N.mod_upper_bound (y / 10) 10 ltac:(discriminate)) as B1.
  pose proof (N.mod_upper_bound (y / 10 / 10) 10 ltac:(discriminate)) as B2.
  exists (y / 10 / 10 / 10 mod 10)%N, (y / 10 / 10 mod 10)%N, (y / 10 mod 10)%N, (y mod 10)%N.
  assert (E3 : (y / 10 / 10 / 10 mod 10 = y / 10 / 10 / 10)%N).
  { apply N.mod_small.
    generalize dependent (y / 10 / 10 / 10)%N. generalize dependent (y / 10 / 10 mod 10)%N.
    generalize dependent (y / 10 / 10)%N. generalize dependent (y / 10 mod 10)%N.
    generalize dependent (y / 10)%N. generalize dependent (y mod 10)%N.
    intros. lia. }
  split; [| split; [| repeat split]]; rewrite E3;
    generalize dependent (y / 10 / 10 / 10)%N; generalize dependent (y / 10 / 10 mod 10)%N;
    generalize dependent (y / 10 / 10)%N; generalize dependent (y / 10 mod 10)%N;
    generalize dependent (y / 10)%N; generalize dependent (y mod 10)%N;
    intros; lia.
Qed.

(** From 1000 on the year prints on exactly four digits. *)
Lemma year_text_four_digits (y : N) :
  (1000 <= y <= 9999)%N ->
  exists c1 c2 c3 c4,
    year_text y = String c1 (String c2 (String c3 (String c4 "")))
    /\ is_digit c1 = true /\ is_digit c2 = true
    /\ is_digit c3 = true /\ is_digit c4 = true.
Proof.
  intros Hy.
  destruct (year_digits y Hy)
    as (a & b & c & e & (Ha & Hb & Hc & He) & Hsum & Ea & Eb & Ec & Ee).
  pose (u := decimal_digit a (decimal_digit b (decimal_digit c
               (decimal_digit e Decimal.Nil)))).
  assert (Hu : N.of_uint u = y).
  { unfold N.of_uint. rewrite DecimalPos.Unsigned.of_uint_alt.
    unfold u, Decimal.rev. rewrite !revapp_digit. cbn [Decimal.revapp].
    rewrite !of_lu_digit by lia. cbn [DecimalPos.Unsigned.of_lu].
    symmetry. exact Hsum. }
  assert (Hn : Decimal.unorm u = u).
  { unfold u. destruct Ha as [Ha1 Ha2].
    assert (Hz : a <> 0%N) by lia. clear Hsum Hu Ha1 Ea.
    digit_cases a Ha2; try reflexivity. now contradiction Hz. }
  assert (Ht : N.to_uint y = u).
  { rewrite <- Hu at 1. rewrite DecimalN.Unsigned.to_of. exact Hn. }
  assert (Hs : forall d l, (d < 10)%N ->
             NilZero.string_of_uint (decimal_digit d l)
             = NilEmpty.string_of_uint (decimal_digit d l)).
  { intros d l H. digit_cases d H; reflexivity. }
  exists (digit_char a), (digit_char b), (digit_char c), (digit_char e).
  split.
  - unfold year_text, str_of_Z.
    replace (Z.to_int (Z.of_N y)) with (Decimal.Pos (N.to_uint y))
      by (destruct y; reflexivity).
    rewrite Ht. unfold u. cbn [NilZero.string_of_int].
    rewrite Hs by lia. rewrite !string_of_digit by lia. reflexivity.
  - rewrite Ea, Eb, Ec, Ee. repeat split; apply digit_char_is_digit.
Qed.

(** A [datetime] within range from the year 1000 on prints in the layout
    [YYYY-MM-DD HH:MM]. *)
Lemma strftime_layout (dt : datetime) :
  datetime_in_range dt = true -> (1000 <= year dt)%N ->
  is_ymd_hm (strftime_ymd_hm dt) = true.
Proof.
  unfold datetime_in_range. intros H Hy.
  repeat (apply andb_prop in H; destruct H as [H ?]).
  repeat match goal with
         | E : (_ <=? _)%N = true |- _ => apply N.leb_le in E
         end.
  unfold strftime_ymd_hm.
  destruct (year_text_four_digits (year dt) ltac:(lia))
    as (y1 & y2 & y3 & y4 & -> & Hy1 & Hy2 & Hy3 & Hy4).
  rewrite !zero_pad_2 by lia.
  destruct (two_digits_are_digits (month dt) ltac:(lia)) as (m1 & m2 & -> & Hm1 & Hm2).
  destruct (two_digits_are_digits (day dt) ltac:(lia)) as (d1 & d2 & -> & Hd1 & Hd2).
  destruct (two_digits_are_digits (hour dt) ltac:(lia)) as (h1 & h2 & -> & Hh1 & Hh2).
  destruct (two_digits_are_digits (minute dt) ltac:(lia)) as (n1 & n2 & -> & Hn1 & Hn2).
  unfold is_ymd_hm. cbn [append list_ascii_of_string].
  rewrite Hy1, Hy2, Hy3, Hy4, Hm1, Hm2, Hd1, Hd2, Hh1, Hh2, Hn1, Hn2. reflexivity.
Qed.

(** What [strftime] prints for a [datetime] within range. *)
Lemma strftime_fields (dt : datetime) :
  datetime_in_range dt = true ->
  strftime_ymd_hm dt
  = str_of_Z (Z.of_N (year dt)) ++ "-" ++ two_digits (month dt)
    ++ "-" ++ two_digits (day dt) ++ " " ++ two_digits (hour dt)
    ++ ":" ++ two_digits (minute dt).
Proof.
  unfold datetime_in_range. intros H.
  repeat (apply andb_prop in H; destruct H as [H ?]).
  repeat match goal with
         | E : (_ <=? _)%N = true |- _ => apply N.leb_le in E
         end.
  unfold strftime_ymd_hm, year_text. rewrite !zero_pad_2 by lia. reflexivity.
Qed.

(** A final [Z] is the only one replaced when the rest has none. *)
Lemma replace_trailing_Z (body : string) :
  contains "Z" body = false ->
  replace "Z" "+00:00" (body ++ "Z") = body ++ "+00:00".
Proof.
  induction body as [| c r IH]; simpl; intros H.
  - reflexivity.
  - apply orb_false_elim in H. destruct H as [Hc Hr].
    rewrite Hc. f_equal. apply IH, Hr.
Qed.

(** *** What the formatters return, step by step *)

Lemma mapM_length {A B : Type} (f : A -> result B) (l : list A) (out : list B) :
  mapM f l = Ok out -> List.length out = List.length l.
Proof.
  revert out. induction l as [| x l IH]; simpl; intros out H.
  - injection H as <-; reflexivity.
  - bind_inv H as y Hy. bind_inv H as ys Hys. injection H as <-.
    simpl. f_equal. now apply IH.
Qed.

Lemma mapM_as_str (vs : list value) (strs : list string) :
  mapM as_str vs = Ok strs -> vs = map VStr strs.
Proof.
  revert strs. induction vs as [| v vs IH]; simpl; intros strs H.
  - injection H as <-; reflexivity.
  - bind_inv H as y Hy. bind_inv H as ys Hys. injection H as <-.
    destruct v; simpl in Hy; try discriminate Hy.
    injection Hy as <-. simpl. f_equal. now apply IH.
Qed.

Lemma map_VStr_inj (a b : list string) : map VStr a = map VStr b -> a = b.
Proof.
  revert b. induction a as [| x a IH]; intros [| y b] H; simpl in H;
    try discriminate H; [reflexivity |].
  injection H as -> H. f_equal. now apply IH.
Qed.

Lemma mapM_as_str_map (strs : list string) : mapM as_str (map VStr strs) = Ok strs.
Proof.
  induction strs as [| s strs IH]; simpl; [reflexivity |].
  rewrite IH. reflexivity.
Qed.

Lemma py_join_ok (sep : string) (vs : list value) (out : string) :
  py_join sep vs = Ok out ->
  exists strs, vs = map VStr strs /\ out = String.concat sep strs.
Proof.
  unfold py_join. intros H. bind_inv H as strs Hstrs. injection H as <-.
  exists strs. split; [now apply mapM_as_str | reflexivity].
Qed.

(** The display name of a participant or speaker: its [name] when truthy,
    else its [email] when the key is there, else "Unknown". *)
Lemma display_name_dict (d : list (string * value)) :
  display_name (VDict d)
  = Ok (if truthy (dget d "name" VNone) then dget d "name" VNone
        else match lookup "email" d with
             | Some e => e
             | None => VStr "Unknown"
             end).
Proof.
  unfold display_name, py_get; simpl.
  destruct (truthy (dget d "name" VNone)); reflexivity.
Qed.

Lemma participant_str_list (ps : list value) (pstr : string) :
  participant_str (VList ps) = Ok pstr ->
  exists names,
    mapM display_name (firstn 3 ps) = Ok (map VStr names)
    /\ pstr = (if (3 <? Z.of_nat (List.length ps))%Z
               then String.concat ", " names
                    ++ " (+" ++ str_of_Z (Z.of_nat (List.length ps) - 3) ++ " more)"
               else String.concat ", " names).
Proof.
  unfold participant_str; simpl. intros H.
  bind_inv H as vals Hvals. bind_inv H as joined Hjoined. injection H as <-.
  apply py_join_ok in Hjoined. destruct Hjoined as (names & -> & ->).
  exists names. split; [exact Hvals | reflexivity].
Qed.

(** Conversely the participants text renders as soon as the first three
    display names are strings. *)
Lemma participant_str_renders (ps : list value) (names : list string) :
  mapM display_name (firstn 3 ps) = Ok (map VStr names) ->
  exists pstr, participant_str (VList ps) = Ok pstr.
Proof.
  intros H. unfold participant_str, py_join.
  cbn [py_slice_to py_iter bind]. rewrite H.
  cbn [bind]. rewrite mapM_as_str_map. cbn [bind py_len]. eauto.
Qed.

Lemma summary_lines_ok {L : PyLib} (conv : value) (ls : list string) :
  summary_lines conv = Ok ls ->
  exists c a created pstr,
    conv = VDict c
    /\ dget c "attributes" (VDict []) = VDict a
    /\ format_date (dget a "createdAt" (VStr "")) = Ok created
    /\ participant_str (dget a "participants" (VList [])) = Ok pstr
    /\ ls = [ "- **" ++ py_str (dget a "title" (VStr "Untitled")) ++ "**";
              "  ID: " ++ py_str (dget c "id" (dget a "uuid" (VStr "unknown")));
              "  Date: " ++ py_str created;
              "  Participants: " ++ pstr;
              "" ].
Proof.
  unfold summary_lines. intros H.
  bind_inv H as attrs Hattrs. apply py_get_ok in Hattrs.
  destruct Hattrs as (c & -> & ->).
  bind_inv H as c' Hc'. simpl in Hc'. injection Hc' as <-.
  bind_inv H as a Ha. apply as_dict_ok in Ha.
  bind_inv H as created Hcreated. bind_inv H as pstr Hpstr. injection H as <-.
  exists c, a, created, pstr. repeat split; assumption.
Qed.

Lemma conversation_lines_ok {L : PyLib} (result : value) (lines : list value) :
  conversation_lines result = Ok lines ->
  exists r a created ps plines tt il,
    result = VDict r
    /\ detail_attrs result = Ok (VDict a)
    /\ format_date (dget a "createdAt" (VStr "")) = Ok created
    /\ py_iter (dget a "participants" (VList [])) = Ok ps
    /\ mapM participant_line ps = Ok plines
    /\ format_transcript (dget a "transcript" (VDict [])) = Ok tt
    /\ intel_lines (chosen_intelligence a) = Ok il
    /\ lines = (detail_header (dget a "title" (VStr "Untitled"))
                               (dget a "uuid" (dget r "id" (VStr "unknown")))
                               created
                               (dget a "videoStatus" (VStr "Unknown"))
                ++ plines
                ++ intel_section il
                ++ [ VStr ""; VStr "## Transcript"; VStr ""; tt ])%list.
Proof.
  unfold conversation_lines. intros H.
  bind_inv H as attrs Hattrs. bind_inv H as a Ha. apply as_dict_ok in Ha. subst attrs.
  bind_inv H as r Hr. apply as_dict_ok in Hr. subst result.
  bind_inv H as created Hcreated. bind_inv H as ps Hps.
  bind_inv H as plines Hplines. bind_inv H as tt Htt. bind_inv H as il Hil.
  injection H as <-.
  exists r, a, created, ps, plines, tt, il. repeat split; assumption.
Qed.

(** The text each formatter returns is its lines joined by newlines. *)
Lemma format_conversation_ok {L : PyLib} (result : value) (out : string) :
  format_conversation result = Ok out ->
  exists strs,
    conversation_lines result = Ok (map VStr strs) /\ out = String.concat nl strs.
Proof.
  unfold format_conversation. intros H. bind_inv H as ls Hls.
  apply py_join_ok in H. destruct H as (strs & -> & ->).
  exists strs. split; [exact Hls | reflexivity].
Qed.

Lemma format_search_results_ok {L : PyLib} (r : list (string * value)) (out : string) :
  truthy (dget r "data" (VList [])) = true ->
  format_search_results (VDict r) = Ok out ->
  exists convs blocks header footer,
    py_iter (dget r "data" (VList [])) = Ok convs
    /\ mapM summary_lines convs = Ok blocks
    /\ out = String.concat nl (header :: List.concat blocks ++ footer).
Proof.
  unfold format_search_results. intros Ht H.
  cbn [py_get as_dict bind] in H. rewrite Ht in H. cbn [negb] in H.
  bind_inv H as m Hm. bind_inv H as n Hn. bind_inv H as convs Hconvs.
  bind_inv H as blocks Hblocks. bind_inv H as paged Hpaged.
  match type of H with
  | Ok (String.concat nl (?header :: _ ++ ?footer)) = _ =>
      exists convs, blocks, header, footer
  end.
  split; [exact Hconvs |]. split; [exact Hblocks |].
  injection H as H. symmetry. exact H.
Qed.

Lemma mapM_Forall2 {A B : Type} (f : A -> result B) (l : list A) (out : list B) :
  mapM f l = Ok out -> Forall2 (fun x y => f x = Ok y) l out.
Proof.
  revert out. induction l as [| x l IH]; simpl; intros out H.
  - injection H as <-. constructor.
  - bind_inv H as y Hy. bind_inv H as ys Hys. injection H as <-.
    constructor; [exact Hy | now apply IH].
Qed.

(** What the list formatter returns on a non-empty [data], piece by piece. *)
Lemma format_search_results_layout {L : PyLib}
    (r : list (string * value)) (out : string) :
  truthy (dget r "data" (VList [])) = true ->
  format_search_results (VDict r) = Ok out ->
  exists m n convs blocks paged,
    dget r "meta" (VDict []) = VDict m
    /\ py_len (dget r "data" (VList [])) = Ok n
    /\ py_iter (dget r "data" (VList [])) = Ok convs
    /\ mapM summary_lines convs = Ok blocks
    /\ py_gt_int (dget m "pageCount" (VInt 1)) 1 = Ok paged
    /\ out = String.concat nl
               (("Found " ++ py_str (dget m "totalRecords" (VInt n))
                         ++ " conversations:" ++ nl)
                :: List.concat blocks
                ++ (if paged
                    then [ nl ++ "Page " ++ py_str (dget m "pageNumber" (VInt 1))
                              ++ " of " ++ py_str (dget m "pageCount" VNone) ]
                    else [])).
Proof.
  unfold format_search_results. intros Ht H.
  cbn [py_get as_dict bind] in H. rewrite Ht in H. cbn [negb] in H.
  bind_inv H as m Hm. apply as_dict_ok in Hm.
  bind_inv H as n Hn. bind_inv H as convs Hconvs.
  bind_inv H as blocks Hblocks. bind_inv H as paged Hpaged.
  exists m, n, convs, blocks, paged.
  repeat (split; [assumption |]).
  injection H as H. symmetry. exact H.
Qed.

(** *** The date line *)

(** C6 (as amended).  For a [createdAt] that is a string the date step
    never raises.  The empty string, which is also what an absent
    [createdAt] defaults to, stays as it is; a string that [fromisoformat]
    rejects once each [Z] is replaced by [+00:00] passes through unchanged;
    a non-empty string it accepts is rendered as the year in decimal without
    padding, then [-MM-DD HH:MM] with two digits per field, which is the
    layout [YYYY-MM-DD HH:MM] for every year from 1000 on.  What the date
    step returns is what both formatters print: it follows "  Date: " in
    the block of a conversation in the list, and "**Date:** " on the fourth
    line of the detail text. *)
Theorem format_date_string {L : PyLib} (s : string) :
  (exists out, format_date (VStr s) = Ok (VStr out))
  /\ (s = "" -> format_date (VStr s) = Ok (VStr ""))
  /\ (forall a, lookup "createdAt" a = None ->
        format_date (dget a "createdAt" (VStr "")) = Ok (VStr ""))
  /\ (forall dt, s <> "" -> fromisoformat (replace "Z" "+00:00" s) = Some dt ->
        exists text,
          format_date (VStr s) = Ok (VStr text)
          /\ text = str_of_Z (Z.of_N (year dt)) ++ "-" ++ two_digits (month dt)
                    ++ "-" ++ two_digits (day dt) ++ " " ++ two_digits (hour dt)
                    ++ ":" ++ two_digits (minute dt)
          /\ ((1000 <= year dt)%N -> is_ymd_hm text = true))
  /\ (fromisoformat (replace "Z" "+00:00" s) = None ->
        format_date (VStr s) = Ok (VStr s))
  /\ (forall body, contains "Z" body = false ->
        replace "Z" "+00:00" (body ++ "Z") = body ++ "+00:00")
  /\ (forall r convs out,
        dget r "data" (VList []) = VList convs -> convs <> [] ->
        format_search_results (VDict r) = Ok out ->
        exists text header blocks footer,
          format_date (VStr s) = Ok (VStr text)
          /\ out = String.concat nl (header :: List.concat blocks ++ footer)
          /\ Forall2
               (fun conv block =>
                  forall c a,
                    conv = VDict c ->
                    dget c "attributes" (VDict []) = VDict a ->
                    dget a "createdAt" (VStr "") = VStr s ->
                    nth_error block 2 = Some ("  Date: " ++ text))
               convs blocks)
  /\ (forall result a out,
        detail_attrs result = Ok (VDict a) ->
        dget a "createdAt" (VStr "") = VStr s ->
        format_conversation result = Ok out ->
        exists text strs,
          format_date (VStr s) = Ok (VStr text)
          /\ out = String.concat nl strs
          /\ nth_error strs 3 = Some ("**Date:** " ++ text)).
Proof.
  assert (Hout : exists text, format_date (VStr s) = Ok (VStr text)).
  { unfold format_date; simpl.
    destruct (s =? ""); simpl; [eauto |].
    destruct (fromisoformat _); eauto. }
  split; [exact Hout |].
  split; [| split; [| split; [| split; [| split; [| split]]]]].
  - intros ->. reflexivity.
  - intros a Ha. unfold dget. rewrite Ha. reflexivity.
  - intros dt Hs Hdt.
    pose proof (fromisoformat_range _ _ Hdt) as Hrange.
    exists (strftime_ymd_hm dt). split; [| split].
    + unfold format_date; simpl.
      apply String.eqb_neq in Hs. rewrite Hs. simpl. rewrite Hdt. reflexivity.
    + apply strftime_fields, Hrange.
    + intros Hy. apply strftime_layout; assumption.
  - intros Hnone. unfold format_date; simpl.
    destruct (s =? ""); simpl; [reflexivity |].
    rewrite Hnone. reflexivity.
  - apply replace_trailing_Z.
  - intros r convs out Hdata Hne H.
    destruct Hout as (text & Htext). exists text.
    apply format_search_results_layout in H;
      [| rewrite Hdata; destruct convs; [now contradiction Hne | reflexivity]].
    destruct H as (m & n & convs' & blocks & paged & _ & _ & Hc & Hb & _ & ->).
    rewrite Hdata in Hc. simpl in Hc. injection Hc as <-.
    eexists _, blocks, _. split; [exact Htext |]. split; [reflexivity |].
    apply mapM_Forall2 in Hb.
    eapply Forall2_impl; [| exact Hb].
    intros conv block Hcb c a -> Ha Hcreated. apply summary_lines_ok in Hcb.
    destruct Hcb as (c' & a' & created & pstr & Hc & Ha' & Hdate & _ & ->).
    injection Hc as <-. rewrite Ha in Ha'. injection Ha' as <-.
    rewrite Hcreated, Htext in Hdate. injection Hdate as <-. reflexivity.
  - intros result a out Ha Hcreated H.
    destruct Hout as (text & Htext). exists text.
    apply format_conversation_ok in H. destruct H as (strs & Hlines & ->).
    exists strs. split; [exact Htext |]. split; [reflexivity |].
    apply conversation_lines_ok in Hlines.
    destruct Hlines as (r & a' & created & ps & plines & tt & il
                        & _ & Ha' & Hdate & _ & _ & _ & _ & Hlines).
    rewrite Ha in Ha'. injection Ha' as <-.
    rewrite Hcreated, Htext in Hdate. injection Hdate as <-.
    destruct strs as [| s0 [| s1 [| s2 [| s3 strs]]]]; try discriminate Hlines.
    injection Hlines as _ _ _ E _. cbn [py_str] in E. rewrite E. reflexivity.
Qed.

Lemma format_date_string_witness :
  format_date (L := Sample.lib) (VStr "2024-01-15T10:30:00Z")
  = Ok (VStr "2024-01-15 10:30")
  /\ is_ymd_hm "2024-01-15 10:30" = true
  /\ format_date (L := Sample.lib) (VStr "not-a-date") = Ok (VStr "not-a-date")
  /\ exists strs,
       format_conversation (L := Sample.lib)
         (VDict [("attributes", VDict [("createdAt", VStr "not-a-date")])])
       = Ok (String.concat nl strs)
       /\ nth_error strs 3 = Some "**Date:** not-a-date".
Proof.
  destruct (@format_date_string Sample.lib "2024-01-15T10:30:00Z")
    as (_ & _ & _ & Hparsed & _).
  destruct (Hparsed (mkDatetime 2024 1 15 10 30 0 0 (Some 0%Z))
              ltac:(discriminate) eq_refl)
    as (text & Hout & Htext & Hlayout).
  assert (E : text = "2024-01-15 10:30") by (rewrite Htext; reflexivity).
  split; [rewrite Hout, E; reflexivity |].
  split; [rewrite <- E; apply Hlayout; simpl; lia |].
  destruct (@format_date_string Sample.lib "not-a-date")
    as (_ & _ & _ & _ & Hrejected & _ & _ & Hdetail).
  split; [apply Hrejected; reflexivity |].
  destruct (format_conversation (L := Sample.lib)
              (VDict [("attributes", VDict [("createdAt", VStr "not-a-date")])]))
    as [out | e] eqn:H; [| vm_compute in H; discriminate H].
  destruct (Hdetail (VDict [("attributes", VDict [("createdAt", VStr "not-a-date")])])
              [("createdAt", VStr "not-a-date")] out eq_refl eq_refl H)
    as (text' & strs & Htext' & -> & Hline).
  rewrite (Hrejected eq_refl) in Htext'. injection Htext' as <-.
  exists strs. split; [reflexivity | exact Hline].
Defined.

(** A date that parses and is not rendered on sixteen characters: the year
    999 prints on three digits. *)
Lemma early_year_not_four_digits :
  format_date (L := Sample.lib) (VStr "0999-01-01T00:00:00Z")
  = Ok (VStr "999-01-01 00:00")
  /\ is_ymd_hm "999-01-01 00:00" = false.
Proof.
  split; vm_compute; reflexivity.
Qed.

(** *** The displayed ID *)

(** C1 (as amended).  Whenever the detail formatter renders, its ID line
    shows [attributes.uuid] if that key is present, else the top-level [id]
    if present, else "unknown"; the list formatter orders the same two
    sources the other way round: [id], else [attributes.uuid], else
    "unknown". *)
Theorem conversation_id_chains {L : PyLib}
    (result conv : value) (lines : list value) (ls : list string) :
  conversation_lines result = Ok lines ->
  summary_lines conv = Ok ls ->
  (exists r a,
      result = VDict r /\ detail_attrs result = Ok (VDict a)
      /\ nth_error lines 2
         = Some (VStr ("**ID:** " ++
                       py_str match lookup "uuid" a with
                              | Some u => u
                              | None => match lookup "id" r with
                                        | Some i => i
                                        | None => VStr "unknown"
                                        end
                              end)))
  /\ (exists c a,
         conv = VDict c /\ dget c "attributes" (VDict []) = VDict a
         /\ nth_error ls 1
            = Some ("  ID: " ++
                    py_str match lookup "id" c with
                           | Some i => i
                           | None => match lookup "uuid" a with
                                     | Some u => u
                                     | None => VStr "unknown"
                                     end
                           end)).
Proof.
  intros Hd Hs. split.
  - apply conversation_lines_ok in Hd.
    destruct Hd as (r & a & created & ps & plines & tt & il
                    & -> & Ha & _ & _ & _ & _ & _ & ->).
    exists r, a. split; [reflexivity |]. split; [exact Ha | reflexivity].
  - apply summary_lines_ok in Hs.
    destruct Hs as (c & a & created & pstr & -> & Ha & _ & _ & ->).
    exists c, a. split; [reflexivity |]. split; [exact Ha | reflexivity].
Qed.

Lemma conversation_id_chains_witness :
  exists lines ls,
    conversation_lines (L := Sample.lib) both_ids = Ok lines
    /\ summary_lines (L := Sample.lib) both_ids = Ok ls
    /\ nth_error lines 2 = Some (VStr "**ID:** inner")
    /\ nth_error ls 1 = Some "  ID: top".
Proof.
  destruct (conversation_lines (L := Sample.lib) both_ids) as [lines | e] eqn:Hd;
    [| vm_compute in Hd; discriminate Hd].
  destruct (summary_lines (L := Sample.lib) both_ids) as [ls | e] eqn:Hs;
    [| vm_compute in Hs; discriminate Hs].
  exists lines, ls. split; [reflexivity |]. split; [reflexivity |].
  destruct (@conversation_id_chains Sample.lib both_ids both_ids lines ls Hd Hs)
    as [(r & a & Hr & Ha & Hline) (c & a' & Hc & Ha' & Hline')].
  injection Hr as <-. injection Hc as <-.
  vm_compute in Ha. injection Ha as <-.
  vm_compute in Ha'. injection Ha' as <-.
  split; [exact Hline | exact Hline'].
Defined.

(** With both a top-level [id] and an [attributes.uuid], the detail
    formatter shows the latter, not the top-level [id]. *)
Lemma detail_id_not_top_level_first :
  exists r a lines,
    both_ids = VDict r
    /\ detail_attrs both_ids = Ok (VDict a)
    /\ conversation_lines (L := Sample.lib) both_ids = Ok lines
    /\ lookup "id" r = Some (VStr "top")
    /\ nth_error lines 2 <> Some (VStr ("**ID:** " ++ "top"))
    /\ nth_error lines 2
       <> Some (VStr ("**ID:** " ++
                      py_str (L := Sample.lib)
                             match lookup "id" r with
                             | Some i => i
                             | None => match lookup "uuid" a with
                                       | Some u => u
                                       | None => VStr "unknown"
                                       end
                             end)).
Proof.
  eexists _, _, _.
  split; [reflexivity |]. split; [vm_compute; reflexivity |].
  split; [vm_compute; reflexivity |]. split; [reflexivity |].
  split; vm_compute; intros H; discriminate H.
Qed.

(** *** The participants line of a summary *)

(** C5.  On a non-empty [data] the text the list formatter returns is its
    header line, then one block of five lines per conversation in the order
    of [data], then the footer if any.  The fourth line of a block is
    "  Participants: " followed, for a conversation whose participants are
    the list [ps], by the display names of the first three participants at
    most, in input order and separated by ", "; when there are more than
    three it ends with " (+k more)" where [k] is the count beyond three, and
    otherwise it carries no suffix. *)
Theorem participants_line_truncated {L : PyLib}
    (r : list (string * value)) (convs : list value) (out : string) :
  dget r "data" (VList []) = VList convs -> convs <> [] ->
  format_search_results (VDict r) = Ok out ->
  exists header blocks footer,
    out = String.concat nl (header :: List.concat blocks ++ footer)
    /\ Forall2
         (fun conv block =>
            exists c a title_line id_line date_line pstr,
              conv = VDict c
              /\ dget c "attributes" (VDict []) = VDict a
              /\ block = [title_line; id_line; date_line; "  Participants: " ++ pstr; ""]
              /\ forall ps,
                   dget a "participants" (VList []) = VList ps ->
                   exists names,
                     mapM display_name (firstn 3 ps) = Ok (map VStr names)
                     /\ List.length names = Nat.min 3 (List.length ps)
                     /\ pstr = (if (3 <? List.length ps)%nat
                                then String.concat ", " names
                                     ++ " (+" ++ str_of_Z (Z.of_nat (List.length ps - 3))
                                     ++ " more)"
                                else String.concat ", " names))
         convs blocks.
Proof.
  intros Hdata Hne H.
  apply format_search_results_layout in H;
    [| rewrite Hdata; destruct convs; [now contradiction Hne | reflexivity]].
  destruct H as (m & n & convs' & blocks & paged & _ & _ & Hc & Hb & _ & ->).
  rewrite Hdata in Hc. simpl in Hc. injection Hc as <-.
  eexists _, blocks, _. split; [reflexivity |].
  apply mapM_Forall2 in Hb.
  eapply Forall2_impl; [| exact Hb].
  intros conv block Hcb. apply summary_lines_ok in Hcb.
  destruct Hcb as (c & a & created & pstr & -> & Ha & _ & Hpstr & ->).
  exists c, a. eexists _, _, _, pstr.
  split; [reflexivity |]. split; [exact Ha |]. split; [reflexivity |].
  intros ps Hps. rewrite Hps in Hpstr. apply participant_str_list in Hpstr.
  destruct Hpstr as (names & Hnames & ->).
  exists names. split; [exact Hnames |]. split.
  - apply mapM_length in Hnames. rewrite length_map in Hnames.
    rewrite Hnames. apply length_firstn.
  - destruct (3 <? List.length ps)%nat eqn:E.
    + apply Nat.ltb_lt in E.
      replace (3 <? Z.of_nat (List.length ps))%Z with true
        by (symmetry; apply Z.ltb_lt; lia).
      replace (Z.of_nat (List.length ps) - 3)%Z with (Z.of_nat (List.length ps - 3)) by lia.
      reflexivity.
    + apply Nat.ltb_ge in E.
      replace (3 <? Z.of_nat (List.length ps))%Z with false
        by (symmetry; apply Z.ltb_ge; lia).
      reflexivity.
Qed.

Lemma participants_line_truncated_witness :
  exists out header t1 i1 d1 t2 i2 d2 footer,
    format_search_results (L := Sample.lib) (VDict two_summaries) = Ok out
    /\ out = String.concat nl
               (header
                :: [ t1; i1; d1; "  Participants: Ann, bob@x.io, Unknown (+2 more)"; "";
                     t2; i2; d2; "  Participants: Ann, Bob, Cy"; "" ]
                ++ footer).
Proof.
  destruct (format_search_results (L := Sample.lib) (VDict two_summaries))
    as [out | e] eqn:H; [| vm_compute in H; discriminate H].
  destruct (@participants_line_truncated Sample.lib two_summaries _ out
              eq_refl ltac:(discriminate) H)
    as (header & blocks & footer & -> & HF).
  inversion HF as [| conv1 b1 convs1 bs1 H1 HF1 E1 E2]. subst. clear HF.
  inversion HF1 as [| conv2 b2 convs2 bs2 H2 HF2 E1 E2]. subst. clear HF1.
  inversion HF2. subst. clear HF2.
  destruct H1 as (c1 & a1 & t1 & i1 & d1 & p1 & Hc1 & Ha1 & -> & Hp1).
  destruct H2 as (c2 & a2 & t2 & i2 & d2 & p2 & Hc2 & Ha2 & -> & Hp2).
  injection Hc1 as <-. injection Hc2 as <-.
  vm_compute in Ha1. injection Ha1 as <-.
  vm_compute in Ha2. injection Ha2 as <-.
  destruct (Hp1 five_participants eq_refl) as (n1 & Hn1 & _ & ->).
  destruct (Hp2 three_named eq_refl) as (n2 & Hn2 & _ & ->).
  assert (F1 : n1 = ["Ann"; "bob@x.io"; "Unknown"]).
  { apply map_VStr_inj. rewrite <- (f_equal (fun x => match x with Ok l => l | Raise _ => [] end) Hn1).
    reflexivity. }
  assert (F2 : n2 = ["Ann"; "Bob"; "Cy"]).
  { apply map_VStr_inj. rewrite <- (f_equal (fun x => match x with Ok l => l | Raise _ => [] end) Hn2).
    reflexivity. }
  subst n1 n2.
  exists (String.concat nl
            (header
             :: [ t1; i1; d1; "  Participants: Ann, bob@x.io, Unknown (+2 more)"; "";
                  t2; i2; d2; "  Participants: Ann, Bob, Cy"; "" ]
             ++ footer)), header, t1, i1, d1, t2, i2, d2, footer.
  split; reflexivity.
Defined.

(** *** The intelligence section *)

Lemma flat_map_nil_iff {A B : Type} (f : A -> list B) (l : list A) :
  flat_map f l = [] <-> forall x, In x l -> f x = [].
Proof.
  induction l as [| y l IH]; simpl.
  - split; [intros _ x [] | reflexivity].
  - split.
    + intros H. apply app_eq_nil in H. destruct H as [Hy Hl].
      intros x [<- | Hx]; [exact Hy | now apply IH].
    + intros H. rewrite (H y (or_introl eq_refl)). simpl.
      apply IH. intros x Hx. apply H. now right.
Qed.

Lemma intel_lines_ok {L : PyLib} (intelligence : value) (il : list value) :
  intel_lines intelligence = Ok il ->
  (truthy intelligence = false /\ il = [])
  \/ (exists d, intelligence = VDict d /\ d <> []
        /\ il = flat_map (fun kv : string * value => intel_entry (fst kv) (snd kv)) d).
Proof.
  unfold intel_lines. destruct (truthy intelligence) eqn:Ht.
  - intros H. bind_inv H as d Hd. apply as_dict_ok in Hd. subst intelligence.
    injection H as <-. right. exists d. repeat split.
    intros ->. discriminate Ht.
  - intros H. injection H as <-. left. split; reflexivity.
Qed.

(** Which entries of a mapping make [intel_lines] non-empty, and what a
    block with a truthy value contributes. *)
Lemma intel_lines_emitted {L : PyLib} (chosen : value) (il : list value) :
  intel_lines chosen = Ok il ->
  (il <> [] <->
     exists d k item, chosen = VDict d /\ In (k, item) d /\ intel_entry k item <> [])
  /\ (il <> [] -> truthy chosen = true)
  /\ (forall d1 d2 k block,
        chosen = VDict (d1 ++ (k, VDict block) :: d2) ->
        truthy (dget block "value" (VStr "")) = true ->
        il = (flat_map (fun kv : string * value => intel_entry (fst kv) (snd kv)) d1
              ++ [ VStr ("### " ++ py_str (dget block "title" (VStr k)));
                   dget block "value" (VStr "");
                   VStr "" ]
              ++ flat_map (fun kv : string * value => intel_entry (fst kv) (snd kv)) d2)%list).
Proof.
  intros Hil. apply intel_lines_ok in Hil.
  destruct Hil as [[Hf ->] | (d & Hd & Hne & ->)].
  - split; [| split].
    + split; [intros E; now contradiction E |].
      intros (d & k & item & Hd & Hin & _). rewrite Hd in Hf.
      destruct d; [destruct Hin | discriminate Hf].
    + intros E; now contradiction E.
    + intros d1 d2 k block Hd _. rewrite Hd in Hf.
      destruct d1; discriminate Hf.
  - split; [| split].
    + split.
      * intros Hil. exists d.
        destruct (flat_map _ d) eqn:E in Hil; [now contradiction Hil |].
        clear Hil.
        assert (Hex : exists kv, In kv d /\ intel_entry (fst kv) (snd kv) <> []).
        { clear Hd Hne. induction d as [| kv d IH]; [discriminate E |].
          simpl in E. destruct (intel_entry (fst kv) (snd kv)) eqn:Ekv.
          - destruct (IH E) as (kv' & Hin & Hkv'). exists kv'. split; [now right | exact Hkv'].
          - exists kv. split; [now left |]. rewrite Ekv. discriminate. }
        destruct Hex as ([k item] & Hin & Hkv). exists k, item.
        split; [exact Hd |]. split; assumption.
      * intros (d' & k & item & Hd' & Hin & Hentry).
        rewrite Hd in Hd'. injection Hd' as <-.
        intros E. rewrite flat_map_nil_iff in E.
        apply Hentry. exact (E (k, item) Hin).
    + intros _. rewrite Hd. destruct d; [now contradiction Hne | reflexivity].
    + intros d1 d2 k block Hd' Hv. rewrite Hd in Hd'. injection Hd' as ->.
      rewrite flat_map_app. simpl. rewrite Hv. reflexivity.
Qed.

(** C7 (as amended).  Whenever the detail formatter returns, its text is,
    joined by newlines: the seven heading lines, one line per participant,
    the intelligence section, and the transcript section.  The intelligence
    is read from [confirmedExtractedIntelligence] when that is truthy and
    from [extractedIntelligence] otherwise.  The section is there exactly
    when at least one entry of the mapping so chosen renders a line, which
    needs the mapping to be non-empty but is not implied by it; an emitted
    section is an empty line, the heading "## Extracted Intelligence" and
    the rendered entries.  An entry whose value is a dict with a truthy
    "value" renders as "### " followed by its "title" (the key when there
    is no title), then the value, then an empty line. *)
Theorem intelligence_section_emitted {L : PyLib} (result : value) (out : string) :
  format_conversation result = Ok out ->
  exists r a created ps plines text il,
    result = VDict r
    /\ detail_attrs result = Ok (VDict a)
    /\ format_date (dget a "createdAt" (VStr "")) = Ok created
    /\ py_iter (dget a "participants" (VList [])) = Ok ps
    /\ mapM participant_line ps = Ok (map VStr plines)
    /\ format_transcript (dget a "transcript" (VDict [])) = Ok (VStr text)
    /\ let confirmed := dget a "confirmedExtractedIntelligence" (VDict []) in
       let chosen :=
         if truthy confirmed then confirmed
         else dget a "extractedIntelligence" (VDict []) in
       let section :=
         match il with
         | [] => []
         | _ :: _ => "" :: "## Extracted Intelligence" :: il
         end in
       intel_lines chosen = Ok (map VStr il)
       /\ out = String.concat nl
                  ([ ("# " ++ py_str (dget a "title" (VStr "Untitled")))%string;
                     "";
                     ("**ID:** "
                      ++ py_str (dget a "uuid" (dget r "id" (VStr "unknown"))))%string;
                     ("**Date:** " ++ py_str created)%string;
                     ("**Video Status:** "
                      ++ py_str (dget a "videoStatus" (VStr "Unknown")))%string;
                     "";
                     "## Participants" ]
                   ++ plines
                   ++ section
                   ++ [ ""; "## Transcript"; ""; text ])%list
       /\ (section <> [] <->
             exists d k item,
               chosen = VDict d /\ In (k, item) d /\ intel_entry k item <> [])
       /\ (truthy chosen = false -> section = [])
       /\ (forall d1 d2 k block,
             chosen = VDict (d1 ++ (k, VDict block) :: d2) ->
             truthy (dget block "value" (VStr "")) = true ->
             exists before text_of_value after,
               dget block "value" (VStr "") = VStr text_of_value
               /\ map VStr before
                  = flat_map (fun kv : string * value => intel_entry (fst kv) (snd kv)) d1
               /\ map VStr after
                  = flat_map (fun kv : string * value => intel_entry (fst kv) (snd kv)) d2
               /\ il = (before
                        ++ [ ("### " ++ py_str (dget block "title" (VStr k)))%string;
                             text_of_value;
                             "" ]
                        ++ after)%list).
Proof.
  intros H. apply format_conversation_ok in H. destruct H as (strs & Hlines & ->).
  apply conversation_lines_ok in Hlines.
  destruct Hlines as (r & a & created & ps & plines & tt & ilv
                      & -> & Ha & Hcreated & Hps & Hpl & Htt & Hil & Hlines).
  apply map_eq_app in Hlines. destruct Hlines as (head & rest1 & -> & Hhead & Hlines).
  apply map_eq_app in Hlines. destruct Hlines as (pl & rest2 & -> & <- & Hlines).
  apply map_eq_app in Hlines. destruct Hlines as (sec & tail & -> & Hsec & Htail).
  destruct tail as [| t1 [| t2 [| t3 [| t4 [| t5 tail]]]]]; try discriminate Htail.
  injection Htail as E1 E2 E3 <-.
  destruct head as [| h1 [| h2 [| h3 [| h4 [| h5 [| h6 [| h7 [| h8 head]]]]]]]];
    try discriminate Hhead.
  injection Hhead as F1 F2 F3 F4 F5 F6 F7.
  assert (Hsplit : exists il,
             ilv = map VStr il
             /\ sec = match il with
                      | [] => []
                      | _ :: _ => "" :: "## Extracted Intelligence" :: il
                      end).
  { destruct ilv as [| x ilv]; simpl in Hsec.
    - destruct sec; [| discriminate Hsec]. exists []. split; reflexivity.
    - destruct sec as [| s1 [| s2 sec]]; try discriminate Hsec.
      injection Hsec as G1 G2 G3.
      destruct sec as [| s3 sec]; [discriminate G3 |].
      exists (s3 :: sec). split; [symmetry; exact G3 |].
      subst s1 s2. reflexivity. }
  destruct Hsplit as (il & -> & ->).
  exists r, a, created, ps, pl, t4, il.
  split; [reflexivity |]. split; [exact Ha |]. split; [exact Hcreated |].
  split; [exact Hps |]. split; [exact Hpl |]. split; [exact Htt |].
  cbv zeta.
  change (if truthy (dget a "confirmedExtractedIntelligence" (VDict []))
          then dget a "confirmedExtractedIntelligence" (VDict [])
          else dget a "extractedIntelligence" (VDict []))
    with (chosen_intelligence a).
  destruct (intel_lines_emitted (chosen_intelligence a) (map VStr il) Hil)
    as (Hiff & Htruthy & Hblock).
  assert (Hne : match il with
                | [] => []
                | _ :: _ => "" :: "## Extracted Intelligence" :: il
                end <> [] <-> map VStr il <> []).
  { destruct il; simpl; split; intros E; try discriminate; now contradiction E. }
  split; [exact Hil |]. split.
  { subst. reflexivity. }
  split; [rewrite Hne; exact Hiff |]. split.
  - intros Hf. destruct il as [| x il]; [reflexivity |].
    rewrite Htruthy in Hf by discriminate. discriminate Hf.
  - intros d1 d2 k block Hd Hv.
    specialize (Hblock d1 d2 k block Hd Hv).
    apply map_eq_app in Hblock.
    destruct Hblock as (before & rest & -> & Hbefore & Hrest).
    apply map_eq_app in Hrest.
    destruct Hrest as (three & after & -> & Hthree & Hafter).
    destruct three as [| x1 [| x2 [| x3 [| x4 three]]]]; try discriminate Hthree.
    injection Hthree as K1 K2 K3.
    exists before, x2, after.
    split; [symmetry; exact K2 |]. split; [exact Hbefore |]. split; [exact Hafter |].
    subst x1 x3. reflexivity.
Qed.

Lemma intelligence_section_emitted_witness :
  format_conversation (L := Sample.lib) summary_intelligence
  = Ok (String.concat nl summary_intelligence_text)
  /\ format_conversation (L := Sample.lib) confirmed_and_raw
     = Ok (String.concat nl summary_intelligence_text).
Proof.
  split.
  - destruct (format_conversation (L := Sample.lib) summary_intelligence)
      as [out | e] eqn:H; [| vm_compute in H; discriminate H].
    destruct (@intelligence_section_emitted Sample.lib summary_intelligence out H)
      as (r & a & created & ps & plines & text & il
          & Hr & Ha & Hcreated & Hps & Hpl & Htext & Hil & -> & _).
    injection Hr as <-.
    assert (Ea : Ok (VDict a)
                 = Ok (VDict [("extractedIntelligence",
                               VDict [("summary", VDict [("title", VStr "Summary");
                                                         ("value", VStr "Good call")])])]))
      by (rewrite <- Ha; reflexivity).
    injection Ea as ->.
    assert (Ec : Ok created = Ok (VStr "")) by (rewrite <- Hcreated; reflexivity).
    injection Ec as ->.
    assert (Ep : Ok ps = Ok []) by (rewrite <- Hps; reflexivity).
    injection Ep as ->.
    destruct plines; [| discriminate Hpl].
    assert (Et : Ok (VStr text) = Ok (VStr "*No transcript available*"))
      by (rewrite <- Htext; reflexivity).
    injection Et as ->.
    assert (Ei : Ok (map VStr il) = Ok (map VStr ["### Summary"; "Good call"; ""]))
      by (rewrite <- Hil; reflexivity).
    injection Ei as Ei.
    apply (map_VStr_inj il ["### Summary"; "Good call"; ""]) in Ei. subst il.
    reflexivity.
  - destruct (format_conversation (L := Sample.lib) confirmed_and_raw)
      as [out | e] eqn:H; [| vm_compute in H; discriminate H].
    destruct (@intelligence_section_emitted Sample.lib confirmed_and_raw out H)
      as (r & a & created & ps & plines & text & il
          & Hr & Ha & Hcreated & Hps & Hpl & Htext & Hil & -> & _).
    injection Hr as <-.
    assert (Ea : Ok (VDict a)
                 = Ok (VDict [("extractedIntelligence",
                               VDict [("summary", VDict [("title", VStr "Draft");
                                                         ("value", VStr "Raw text")])]);
                              ("confirmedExtractedIntelligence",
                               VDict [("summary", VDict [("title", VStr "Summary");
                                                         ("value", VStr "Good call")])])]))
      by (rewrite <- Ha; reflexivity).
    injection Ea as ->.
    assert (Ec : Ok created = Ok (VStr "")) by (rewrite <- Hcreated; reflexivity).
    injection Ec as ->.
    assert (Ep : Ok ps = Ok []) by (rewrite <- Hps; reflexivity).
    injection Ep as ->.
    destruct plines; [| discriminate Hpl].
    assert (Et : Ok (VStr text) = Ok (VStr "*No transcript available*"))
      by (rewrite <- Htext; reflexivity).
    injection Et as ->.
    assert (Ei : Ok (map VStr il) = Ok (map VStr ["### Summary"; "Good call"; ""]))
      by (rewrite <- Hil; reflexivity).
    injection Ei as Ei.
    apply (map_VStr_inj il ["### Summary"; "Good call"; ""]) in Ei. subst il.
    reflexivity.
Defined.

(** A chosen mapping that is non-empty and yet renders no section: the text
    goes from the participants heading straight to the transcript. *)
Lemma intelligence_section_not_by_mapping_alone :
  exists a,
    detail_attrs blank_intelligence = Ok (VDict a)
    /\ truthy (if truthy (dget a "confirmedExtractedIntelligence" (VDict []))
               then dget a "confirmedExtractedIntelligence" (VDict [])
               else dget a "extractedIntelligence" (VDict [])) = true
    /\ format_conversation (L := Sample.lib) blank_intelligence
       = Ok (String.concat nl blank_intelligence_text)
    /\ ~ In "## Extracted Intelligence" blank_intelligence_text.
Proof.
  eexists.
  split; [vm_compute; reflexivity |].
  split; [reflexivity |].
  split; [vm_compute; reflexivity |].
  simpl. intros H.
  repeat (destruct H as [H | H]; [discriminate H |]).
  exact H.
Qed.

(** *** The list branch of format_transcript *)

Lemma filter_all {A : Type} (f : A -> bool) (l : list A) :
  Forall (fun x => f x = true) l -> filter f l = l.
Proof.
  induction 1 as [| x l Hx _ IH]; simpl; [reflexivity |].
  rewrite Hx, IH. reflexivity.
Qed.

Lemma filter_none {A : Type} (f : A -> bool) (l : list A) :
  Forall (fun x => f x = false) l -> filter f l = [].
Proof.
  induction 1 as [| x l Hx _ IH]; simpl; [reflexivity |].
  rewrite Hx. exact IH.
Qed.

(** The falsy test in front agrees with the loop on the empty list, so the
    list branch is the loop for every list. *)
Lemma format_transcript_list {L : PyLib} (segments : list value) :
  format_transcript (VList segments)
  = bind (foldM segment_step initial_state segments)
         (fun st => Ok (VStr (join_turns (flush st)))).
Proof.
  destruct segments; reflexivity.
Qed.

(** Over segments that can all be read, the loop is a fold of [advance]. *)
Lemma foldM_segment_step {L : PyLib}
    (segments : list value) (vs : list (value * string)) (st : loop_state) :
  mapM segment_view segments = Ok vs ->
  foldM segment_step st segments = Ok (fold_left advance vs st).
Proof.
  revert vs st. induction segments as [| seg segments IH]; simpl; intros vs st H.
  - injection H as <-. reflexivity.
  - bind_inv H as v Hv. bind_inv H as vs' Hvs'. injection H as <-.
    unfold segment_step at 1. rewrite Hv. simpl. now apply IH.
Qed.

Lemma segment_step_blank {L : PyLib} (st : loop_state) (segment : value) :
  is_blank segment = true -> segment_step st segment = Ok st.
Proof.
  unfold is_blank, segment_step.
  destruct (segment_view segment) as [[sp t] | e]; simpl; [| discriminate].
  intros ->. reflexivity.
Qed.

Lemma foldM_skip_blank {L : PyLib} (st : loop_state) (segments : list value) :
  foldM segment_step st segments
  = foldM segment_step st (filter (fun seg => negb (is_blank seg)) segments).
Proof.
  revert st. induction segments as [| seg segments IH]; simpl; intros st; [reflexivity |].
  destruct (is_blank seg) eqn:E; simpl.
  - rewrite (segment_step_blank st seg E). simpl. apply IH.
  - destruct (segment_step st seg); simpl; [apply IH | reflexivity].
Qed.

Lemma py_eq_None (v : value) : py_eq v VNone = true -> v = VNone.
Proof.
  destruct v as [| b | n | q | s | l | d]; simpl; intros H;
    try reflexivity; discriminate H.
Qed.

(** The loop invariant: what has been flushed, then the turns still to come
    out of the open run and the remaining views. *)
Lemma flush_fold_advance {L : PyLib} (vs : list (value * string)) (st : loop_state) :
  flush (fold_left advance vs st)
  = (lines st
     ++ map (fun turn => turn_line (fst turn) (snd turn))
            (filter emitted
               (turns_from (current_speaker st) (current_text st) (nonempty_views vs))))%list.
Proof.
  revert st. induction vs as [| [sp t] vs IH]; intros st.
  - simpl. unfold flush, emitted; simpl.
    destruct (truthy (current_speaker st) && _); [reflexivity |].
    symmetry. apply app_nil_r.
  - simpl fold_left. rewrite IH. clear IH.
    unfold advance, nonempty_views. simpl filter.
    destruct (t =? "") eqn:Ht; simpl negb; cbv iota.
    + reflexivity.
    + simpl turns_from.
      destruct (py_eq sp (current_speaker st)) eqn:Heq.
      * reflexivity.
      * simpl. unfold flush at 1, emitted at 2. simpl fst. simpl snd.
        destruct (truthy (current_speaker st) && _).
        -- simpl. rewrite <- app_assoc. reflexivity.
        -- reflexivity.
Qed.

Lemma turns_from_texts (speaker : value) (texts : list string)
    (vs : list (value * string)) :
  texts <> [] -> Forall (fun turn => snd turn <> []) (turns_from speaker texts vs).
Proof.
  revert speaker texts.
  induction vs as [| [sp t] vs IH]; simpl; intros speaker texts Hne.
  - constructor; [exact Hne | constructor].
  - destruct (py_eq sp speaker).
    + apply IH. destruct texts; discriminate.
    + constructor; [exact Hne |]. apply IH. discriminate.
Qed.

Lemma turns_from_speakers (speaker : value) (texts : list string)
    (vs : list (value * string)) :
  Forall (fun turn => fst turn = speaker \/ exists t, In (fst turn, t) vs)
         (turns_from speaker texts vs).
Proof.
  revert speaker texts.
  induction vs as [| [sp t] vs IH]; simpl; intros speaker texts.
  - constructor; [now left | constructor].
  - destruct (py_eq sp speaker).
    + eapply Forall_impl; [| apply IH].
      intros turn [H | [t' H]]; [now left | right; exists t'; now right].
    + constructor; [now left |].
      eapply Forall_impl; [| apply (IH sp [t])].
      intros turn [H | [t' H]]; right.
      * exists t. left. now rewrite H.
      * exists t'. now right.
Qed.

(** The turns are a cut of the views: their texts, in order, are the texts
    of the views, and a new turn starts only where the speaker changes. *)
Lemma turns_from_texts_kept (speaker : value) (texts : list string)
    (vs : list (value * string)) :
  List.concat (map snd (turns_from speaker texts vs)) = (texts ++ map snd vs)%list.
Proof.
  revert speaker texts.
  induction vs as [| [sp t] vs IH]; simpl; intros speaker texts.
  - reflexivity.
  - destruct (py_eq sp speaker); simpl.
    + rewrite IH, <- app_assoc. reflexivity.
    + rewrite IH. reflexivity.
Qed.

Lemma turns_texts_kept (vs : list (value * string)) :
  List.concat (map snd (turns vs)) = map snd vs.
Proof.
  destruct vs as [| [sp t] rest]; simpl; [reflexivity |].
  apply turns_from_texts_kept.
Qed.

Lemma turns_from_head (speaker : value) (texts : list string)
    (vs : list (value * string)) :
  exists texts' rest, turns_from speaker texts vs = (speaker, texts') :: rest.
Proof.
  revert texts. induction vs as [| [sp t] vs IH]; simpl; intros texts.
  - eauto.
  - destruct (py_eq sp speaker); [apply IH | eauto].
Qed.

Lemma turns_from_adjacent_differ (speaker : value) (texts : list string)
    (vs : list (value * string)) :
  adjacent_differ (turns_from speaker texts vs).
Proof.
  revert speaker texts.
  induction vs as [| [sp t] vs IH]; simpl; intros speaker texts.
  - split; exact I.
  - destruct (py_eq sp speaker) eqn:E; [apply IH |].
    split; [| apply IH].
    destruct (turns_from_head sp [t] vs) as (texts' & rest & ->). exact E.
Qed.

Lemma turns_adjacent_differ (vs : list (value * string)) : adjacent_differ (turns vs).
Proof.
  destruct vs as [| [sp t] rest]; simpl; [exact I |].
  apply turns_from_adjacent_differ.
Qed.

(** The turns are the turns of a cut of the views into well-formed runs. *)
Lemma turns_from_runs (run0 vs : list (value * string)) :
  run_ok run0 ->
  exists runs,
    List.concat runs = (run0 ++ vs)%list
    /\ Forall run_ok runs
    /\ turns_from (head_speaker run0) (map snd run0) vs = map turn_of_run runs.
Proof.
  revert run0. induction vs as [| [sp t] vs IH]; intros run0 Hok.
  - exists [run0]. simpl. repeat split.
    + constructor; [exact Hok | constructor].
  - simpl turns_from. destruct (py_eq sp (head_speaker run0)) eqn:E.
    + destruct (IH (run0 ++ [(sp, t)])%list) as (runs & Hcat & Hall & Hturns).
      { destruct Hok as [Hne Htl]. destruct run0 as [| v0 run0]; [now contradiction Hne |].
        split; [discriminate |]. simpl in *.
        apply Forall_app. split; [exact Htl |].
        constructor; [exact E | constructor]. }
      exists runs. split; [rewrite Hcat, <- app_assoc; reflexivity |].
      split; [exact Hall |].
      rewrite <- Hturns, map_app. simpl.
      destruct Hok as [Hne _]. destruct run0; [now contradiction Hne | reflexivity].
    + destruct (IH [(sp, t)]) as (runs & Hcat & Hall & Hturns).
      { split; [discriminate | constructor]. }
      exists (run0 :: runs). simpl. rewrite Hcat.
      split; [reflexivity |]. split; [constructor; assumption |].
      simpl in Hturns. rewrite Hturns. reflexivity.
Qed.

Lemma turns_runs (vs : list (value * string)) :
  exists runs,
    List.concat runs = vs /\ Forall run_ok runs /\ turns vs = map turn_of_run runs.
Proof.
  destruct vs as [| [sp t] rest].
  - exists []. repeat split. constructor.
  - destruct (turns_from_runs [(sp, t)] rest) as (runs & Hcat & Hall & Hturns).
    { split; [discriminate | constructor]. }
    exists runs. repeat split; assumption.
Qed.

Lemma py_eq_str (s : string) (v : value) : py_eq (VStr s) v = true -> v = VStr s.
Proof.
  destruct v as [| b | n | q | t | l | d]; simpl; intros H; try discriminate H.
  apply String.eqb_eq in H. now subst.
Qed.

(** A view with the empty speaker name sits in a run headed by that name. *)
Lemma run_of_nameless (run : list (value * string)) (t : string) :
  run_ok run -> In (VStr "", t) run -> head_speaker run = VStr "".
Proof.
  intros [Hne Htl] Hin. destruct run as [| [sp0 t0] run]; [now contradiction Hne |].
  cbn [tl head_speaker] in *. destruct Hin as [Hin | Hin].
  - now injection Hin as -> _.
  - rewrite Forall_forall in Htl. specialize (Htl _ Hin). cbn [fst] in Htl.
    now apply py_eq_str in Htl.
Qed.

Lemma filter_emitted_initial (vs : list (value * string)) :
  filter emitted (turns_from VNone [] vs)
  = filter (fun turn => truthy (fst turn)) (turns vs).
Proof.
  assert (Hin : forall sp t rest,
             filter emitted (turns_from sp [t] rest)
             = filter (fun turn => truthy (fst turn)) (turns_from sp [t] rest)).
  { intros sp t rest. apply filter_ext_in. intros turn Hturn.
    pose proof (turns_from_texts sp [t] rest) as Hne.
    rewrite Forall_forall in Hne. specialize (Hne ltac:(discriminate) turn Hturn).
    unfold emitted. destruct (snd turn); [now contradiction Hne |].
    apply andb_true_r. }
  destruct vs as [| [sp t] rest]; simpl; [reflexivity |].
  destruct (py_eq sp VNone) eqn:E.
  - apply py_eq_None in E. subst sp. apply Hin.
  - simpl. apply Hin.
Qed.

(** The loop and the specification's reading agree, up to the turns of a
    falsy speaker, whenever every segment can be read. *)
Lemma format_transcript_turns {L : PyLib}
    (segments : list value) (vs : list (value * string)) :
  mapM segment_view segments = Ok vs ->
  format_transcript (VList segments)
  = Ok (VStr (render_turns
                (filter (fun turn => truthy (fst turn)) (turns (nonempty_views vs))))).
Proof.
  intros H. rewrite format_transcript_list.
  rewrite (foldM_segment_step segments vs initial_state H). simpl bind.
  rewrite flush_fold_advance. simpl lines. simpl current_speaker. simpl current_text.
  rewrite filter_emitted_initial. reflexivity.
Qed.

Lemma nonempty_views_In (vs : list (value * string)) (sp : value) (t : string) :
  In (sp, t) (nonempty_views vs) <-> In (sp, t) vs /\ t <> "".
Proof.
  unfold nonempty_views. rewrite filter_In. simpl.
  rewrite negb_true_iff, String.eqb_neq. reflexivity.
Qed.

(** Every turn is headed by the speaker of one of the views. *)
Lemma turns_speakers (vs : list (value * string)) :
  Forall (fun turn => exists t, In (fst turn, t) vs) (turns vs).
Proof.
  destruct vs as [| [sp t] rest]; simpl; [constructor |].
  eapply Forall_impl; [| apply (turns_from_speakers sp [t] rest)].
  intros turn [H | [t' H]].
  - exists t. left. now rewrite H.
  - exists t'. now right.
Qed.

(** What [segment_view] reads: the display name of the speaker block, and
    the concatenation of the words' text fields, trimmed. *)
Lemma segment_view_ok (segment sp : value) (t : string) :
  segment_view segment = Ok (sp, t) ->
  exists d ws texts,
    segment = VDict d
    /\ display_name (dget d "speaker" (VDict [])) = Ok sp
    /\ py_iter (dget d "words" (VList [])) = Ok ws
    /\ mapM (fun w => py_get w "text" (VStr "")) ws = Ok (map VStr texts)
    /\ t = strip (String.concat "" texts).
Proof.
  unfold segment_view. intros H.
  bind_inv H as info Hinfo. apply py_get_ok in Hinfo. destruct Hinfo as (d & -> & ->).
  bind_inv H as name Hname. bind_inv H as words Hwords.
  simpl in Hwords. injection Hwords as <-.
  bind_inv H as ws Hws. bind_inv H as vals Hvals. bind_inv H as joined Hjoined.
  injection H as <- <-.
  apply py_join_ok in Hjoined. destruct Hjoined as (texts & -> & ->).
  exists d, ws, texts. repeat split; assumption.
Qed.

(** C3.  Dropping every segment whose trimmed word text is empty leaves the
    result of the formatter unchanged; and two non-empty segments whose
    speakers compare equal, with only such empty segments between them, make
    up a single turn holding both texts. *)
Theorem empty_segments_skipped {L : PyLib}
    (segments empties : list value) (s1 s2 sp1 sp2 : value) (t1 t2 : string) :
  Forall (fun seg => is_blank seg = true) empties ->
  segment_view s1 = Ok (sp1, t1) -> t1 <> "" ->
  segment_view s2 = Ok (sp2, t2) -> t2 <> "" ->
  py_eq sp2 sp1 = true ->
  format_transcript (VList segments)
  = format_transcript (VList (filter (fun seg => negb (is_blank seg)) segments))
  /\ format_transcript (VList (s1 :: empties ++ [s2]))
     = Ok (VStr (render_turns
                   (filter (fun turn => truthy (fst turn)) [(sp1, [t1; t2])]))).
Proof.
  intros Hempty H1 Ht1 H2 Ht2 Heq.
  assert (Hskip : forall segs,
             format_transcript (VList segs)
             = format_transcript (VList (filter (fun seg => negb (is_blank seg)) segs))).
  { intros segs. rewrite !format_transcript_list, <- foldM_skip_blank. reflexivity. }
  split; [apply Hskip |].
  apply String.eqb_neq in Ht1, Ht2.
  rewrite Hskip. simpl filter.
  unfold is_blank at 1. rewrite H1, Ht1. simpl negb. cbv iota.
  rewrite filter_app. simpl filter.
  unfold is_blank at 2. rewrite H2, Ht2. simpl negb. cbv iota.
  rewrite filter_none
    by (eapply Forall_impl; [| exact Hempty]; intros seg ->; reflexivity).
  simpl app.
  rewrite (format_transcript_turns [s1; s2] [(sp1, t1); (sp2, t2)])
    by (simpl; rewrite H1, H2; reflexivity).
  unfold nonempty_views; simpl. rewrite Ht1, Ht2; simpl. rewrite Heq. reflexivity.
Qed.

Lemma empty_segments_skipped_witness :
  format_transcript (L := Sample.lib)
    (VList [ segment [("name", VStr "A")] ["Hi"; " "];
             segment [("name", VStr "B")] [" "; ""];
             segment [("name", VStr "A")] [];
             segment [("name", VStr "A")] ["the"; "re"] ])
  = Ok (VStr "**A:** Hi there").
Proof.
  apply (proj2 (@empty_segments_skipped Sample.lib []
                  [ segment [("name", VStr "B")] [" "; ""];
                    segment [("name", VStr "A")] [] ]
                  (segment [("name", VStr "A")] ["Hi"; " "])
                  (segment [("name", VStr "A")] ["the"; "re"])
                  (VStr "A") (VStr "A") "Hi" "there"
                  ltac:(repeat constructor)
                  eq_refl ltac:(discriminate) eq_refl ltac:(discriminate) eq_refl)).
Defined.

(** C4 (as amended).  For a list of segments that can all be read, each
    segment is a mapping whose text is the concatenation of the text fields
    of its own words, trimmed, and whose speaker is the display name of its
    own speaker block;
    and when every segment with a non-empty text has a truthy speaker name,
    the non-empty segments fall into maximal runs of consecutive segments
    with an equal speaker name, and the formatter returns one turn per run,
    its texts joined by single spaces and rendered as [**speaker:** text],
    the turns separated by a blank line. *)
Theorem transcript_turns_rendered {L : PyLib}
    (segments : list value) (vs : list (value * string)) :
  mapM segment_view segments = Ok vs ->
  (forall sp t, In (sp, t) vs -> t <> "" -> truthy sp = true) ->
  Forall2 (fun segment v =>
             exists d ws texts,
               segment = VDict d
               /\ display_name (dget d "speaker" (VDict [])) = Ok (fst v)
               /\ py_iter (dget d "words" (VList [])) = Ok ws
               /\ mapM (fun w => py_get w "text" (VStr "")) ws = Ok (map VStr texts)
               /\ snd v = strip (String.concat "" texts)) segments vs
  /\ exists runs,
       List.concat runs = nonempty_views vs
       /\ Forall run_ok runs
       /\ adjacent_differ (map turn_of_run runs)
       /\ turns (nonempty_views vs) = map turn_of_run runs
       /\ format_transcript (VList segments)
          = Ok (VStr (match runs with
                      | [] => "*No transcript available*"
                      | _ :: _ =>
                          String.concat (nl ++ nl)
                            (map (fun run =>
                                    "**" ++ py_str (head_speaker run) ++ ":** "
                                    ++ String.concat " " (map snd run)) runs)
                      end)).
Proof.
  intros Hvs Htruthy. split.
  - clear Htruthy. revert vs Hvs.
    induction segments as [| seg segments IH]; simpl; intros vs H.
    + injection H as <-. constructor.
    + bind_inv H as v Hv. bind_inv H as vs' Hvs'. injection H as <-.
      constructor; [| now apply IH].
      destruct v as [sp t]. apply segment_view_ok in Hv.
      destruct Hv as (d & ws & texts & Hd & Hsp & Hws & Htexts & Ht).
      exists d, ws, texts. repeat split; assumption.
  - destruct (turns_runs (nonempty_views vs)) as (runs & Hcat & Hall & Hturns).
    exists runs. split; [exact Hcat |]. split; [exact Hall |].
    split; [rewrite <- Hturns; apply turns_adjacent_differ |].
    split; [exact Hturns |].
    rewrite (format_transcript_turns segments vs Hvs).
    rewrite filter_all.
    + rewrite Hturns. unfold render_turns. rewrite map_map.
      destruct runs; reflexivity.
    + eapply Forall_impl; [| apply turns_speakers].
      intros [sp ts] [t Hin]. simpl in *.
      apply nonempty_views_In in Hin. destruct Hin as [Hin Ht].
      now apply (Htruthy sp t).
Qed.

Lemma transcript_turns_rendered_witness :
  format_transcript (L := Sample.lib) (VList hi_there_hello)
  = Ok (VStr ("**A:** Hi there" ++ nl ++ nl ++ "**B:** Hello"))
  /\ format_transcript (L := Sample.lib) (VList spaced_words)
     = Ok (VStr ("**A:** Hi there" ++ nl ++ nl ++ "**b@x.io:** Hello"))
  /\ exists texts,
       mapM (fun w => py_get w "text" (VStr ""))
         [VDict [("text", VStr "Hel")]; VDict [("text", VStr "lo ")];
          VDict [("text", VStr " ")]]
       = Ok (map VStr texts)
       /\ "Hello" = strip (String.concat "" texts).
Proof.
  split; [| split].
  - destruct (proj2 (@transcript_turns_rendered Sample.lib hi_there_hello
                       [(VStr "A", "Hi"); (VStr "A", "there"); (VStr "B", "Hello")]
                       eq_refl
                       ltac:(intros sp t [H | [H | [H | []]]] _;
                             injection H as <- _; reflexivity)))
      as (runs & _ & _ & _ & Hturns & Hout).
    rewrite Hout. clear Hout.
    change (turns (nonempty_views
                     [(VStr "A", "Hi"); (VStr "A", "there"); (VStr "B", "Hello")]))
      with [(VStr "A", ["Hi"; "there"]); (VStr "B", ["Hello"])] in Hturns.
    destruct runs as [| r1 [| r2 [| r3 runs]]]; try discriminate Hturns.
    injection Hturns as H1 H1' H2 H2'.
    cbn [map String.concat].
    rewrite <- H1, <- H1', <- H2, <- H2'. reflexivity.
  - destruct (proj2 (@transcript_turns_rendered Sample.lib spaced_words
                       [(VStr "A", "Hi"); (VStr "A", "there"); (VStr "b@x.io", "Hello")]
                       eq_refl
                       ltac:(intros sp t [H | [H | [H | []]]] _;
                             injection H as <- _; reflexivity)))
      as (runs & _ & _ & _ & Hturns & Hout).
    rewrite Hout. clear Hout.
    change (turns (nonempty_views
                     [(VStr "A", "Hi"); (VStr "A", "there"); (VStr "b@x.io", "Hello")]))
      with [(VStr "A", ["Hi"; "there"]); (VStr "b@x.io", ["Hello"])] in Hturns.
    destruct runs as [| r1 [| r2 [| r3 runs]]]; try discriminate Hturns.
    injection Hturns as H1 H1' H2 H2'.
    cbn [map String.concat].
    rewrite <- H1, <- H1', <- H2, <- H2'. reflexivity.
  - pose proof (proj1 (@transcript_turns_rendered Sample.lib spaced_words
                         [(VStr "A", "Hi"); (VStr "A", "there"); (VStr "b@x.io", "Hello")]
                         eq_refl
                         ltac:(intros sp t [H | [H | [H | []]]] _;
                               injection H as <- _; reflexivity)))
      as HF.
    inversion HF as [| s1 v1 ss1 vs1 _ HF1 E1 E2]. subst. clear HF.
    inversion HF1 as [| s2 v2 ss2 vs2 _ HF2 E1 E2]. subst. clear HF1.
    inversion HF2 as [| s3 v3 ss3 vs3 H3 _ E1 E2]. subst. clear HF2.
    destruct H3 as (d & ws & texts & Hd & _ & Hws & Htexts & Ht).
    injection Hd as <-.
    assert (E : Ok ws
                = Ok [VDict [("text", VStr "Hel")]; VDict [("text", VStr "lo ")];
                      VDict [("text", VStr " ")]])
      by (rewrite <- Hws; reflexivity).
    injection E as ->.
    exists texts. split; [exact Htexts | exact Ht].
Defined.

(** The text of a segment whose speaker name is empty is not rendered as a
    turn. *)
Lemma nameless_turn_not_rendered :
  mapM segment_view nameless_hi = Ok [(VStr "", "Hi")]
  /\ render_turns (L := Sample.lib) (turns (nonempty_views [(VStr "", "Hi")]))
     = "**:** Hi"
  /\ format_transcript (L := Sample.lib) (VList nameless_hi)
     <> Ok (VStr (render_turns (L := Sample.lib)
                    (turns (nonempty_views [(VStr "", "Hi")])))).
Proof.
  split; [reflexivity |]. split; [reflexivity |].
  vm_compute. intros H. discriminate H.
Qed.

(** C10.  For a list of segments that can all be read, the non-empty
    segments fall into runs of equal speaker names, and the formatter
    returns the turns of the runs whose speaker name is truthy: a segment
    whose resolved speaker name is the empty string sits in a run that is
    not rendered, so its text is in no turn.  When every non-empty segment
    resolves to the empty speaker name, the placeholder is returned.  A
    speaker block with no truthy name and an empty email resolves to the
    empty name. *)
Theorem falsy_speaker_turns_omitted {L : PyLib}
    (segments : list value) (vs : list (value * string)) :
  mapM segment_view segments = Ok vs ->
  (exists runs,
      List.concat runs = nonempty_views vs
      /\ Forall run_ok runs
      /\ turns (nonempty_views vs) = map turn_of_run runs
      /\ format_transcript (VList segments)
         = Ok (VStr (render_turns
                       (filter (fun turn => truthy (fst turn)) (map turn_of_run runs))))
      /\ (forall run t, In run runs -> In (VStr "", t) run ->
                        truthy (fst (turn_of_run run)) = false))
  /\ ((forall sp t, In (sp, t) vs -> t <> "" -> sp = VStr "") ->
      format_transcript (VList segments) = Ok (VStr "*No transcript available*"))
  /\ (forall d, truthy (dget d "name" VNone) = false ->
                lookup "email" d = Some (VStr "") ->
                display_name (VDict d) = Ok (VStr "")).
Proof.
  intros Hvs. split; [| split].
  - destruct (turns_runs (nonempty_views vs)) as (runs & Hcat & Hall & Hturns).
    exists runs. split; [exact Hcat |]. split; [exact Hall |]. split; [exact Hturns |].
    split.
    + rewrite <- Hturns. exact (format_transcript_turns segments vs Hvs).
    + intros run t Hrun Hin. rewrite Forall_forall in Hall.
      simpl. rewrite (run_of_nameless run t (Hall run Hrun) Hin). reflexivity.
  - intros Hall. rewrite (format_transcript_turns segments vs Hvs).
    rewrite filter_none; [reflexivity |].
    eapply Forall_impl; [| apply turns_speakers].
    intros [sp ts] [t Hin]. simpl in *.
    apply nonempty_views_In in Hin. destruct Hin as [Hin Ht].
    rewrite (Hall sp t Hin Ht). reflexivity.
  - intros d Hname Hemail. rewrite display_name_dict, Hname, Hemail. reflexivity.
Qed.

Lemma falsy_speaker_turns_omitted_witness :
  format_transcript (L := Sample.lib) (VList interrupted_by_nameless)
  = Ok (VStr ("**A:** Hi" ++ nl ++ nl ++ "**A:** there"))
  /\ format_transcript (L := Sample.lib) (VList nameless_hi)
     = Ok (VStr "*No transcript available*").
Proof.
  split.
  - destruct (proj1 (@falsy_speaker_turns_omitted Sample.lib interrupted_by_nameless
                       [(VStr "A", "Hi"); (VStr "", "aside"); (VStr "A", "there")]
                       eq_refl))
      as (runs & _ & _ & Hturns & Hout & _).
    rewrite Hout, <- Hturns. reflexivity.
  - apply (proj1 (proj2 (@falsy_speaker_turns_omitted Sample.lib nameless_hi
                           [(VStr "", "Hi")] eq_refl))).
    intros sp t [H | []] _. injection H as <- _. reflexivity.
Defined.

(* ================================================================== *)
(** ** Further properties of the list formatter *)
(* ================================================================== *)

Lemma append_assoc (a b c : string) : (a ++ b) ++ c = a ++ (b ++ c).
Proof.
  induction a as [| x a IH]; simpl; [reflexivity | now rewrite IH].
Qed.

Lemma concat_snoc (sep : string) (l : list string) (x : string) :
  l <> [] -> String.concat sep (l ++ [x]) = String.concat sep l ++ sep ++ x.
Proof.
  induction l as [| y l IH]; [intros H; now contradiction H |].
  intros _. destruct l as [| z l].
  - reflexivity.
  - change (String.concat sep ((y :: z :: l) ++ [x]))
      with (y ++ sep ++ String.concat sep ((z :: l) ++ [x])).
    rewrite IH by discriminate.
    change (String.concat sep (y :: z :: l)) with (y ++ sep ++ String.concat sep (z :: l)).
    rewrite !append_assoc. reflexivity.
Qed.

Lemma py_gt_int_int (k j : Z) : py_gt_int (VInt k) j = Ok (j <? k)%Z.
Proof.
  unfold py_gt_int, num_of, Qle_bool; simpl.
  rewrite !Z.mul_1_r, Z.ltb_antisym. reflexivity.
Qed.

(** Every block of a summary has five lines, the last one empty. *)
Lemma summary_lines_five {L : PyLib} (conv : value) (ls : list string) :
  summary_lines conv = Ok ls -> List.length ls = 5%nat /\ nth_error ls 4 = Some "".
Proof.
  intros H. apply summary_lines_ok in H.
  destruct H as (c & a & created & pstr & _ & _ & _ & _ & ->).
  split; reflexivity.
Qed.

(** X1.  On a non-empty [data] whose items all render, the text starts with
    the line "Found N conversations:" followed by an empty line, where [N]
    is [meta.totalRecords] when that key is present (whatever its value)
    and the number of items otherwise; then comes one block of five lines
    per item, in the order of [data]. *)
Theorem search_results_header_and_blocks {L : PyLib}
    (r m : list (string * value)) (convs : list value) (out : string) :
  dget r "data" (VList []) = VList convs -> convs <> [] ->
  dget r "meta" (VDict []) = VDict m ->
  format_search_results (VDict r) = Ok out ->
  exists blocks footer,
    Forall2 (fun conv block => summary_lines conv = Ok block) convs blocks
    /\ Forall (fun block => List.length block = 5%nat) blocks
    /\ out = String.concat nl
               (("Found " ++ py_str match lookup "totalRecords" m with
                                    | Some total => total
                                    | None => VInt (Z.of_nat (List.length convs))
                                    end
                          ++ " conversations:" ++ nl)
                :: List.concat blocks ++ footer)
    /\ (footer = [] \/ exists line, footer = [line]).
Proof.
  intros Hdata Hne Hmeta H.
  apply format_search_results_layout in H;
    [| rewrite Hdata; destruct convs; [now contradiction Hne | reflexivity]].
  destruct H as (m' & n & convs' & blocks & paged & Hm & Hn & Hc & Hb & _ & ->).
  rewrite Hmeta in Hm. injection Hm as <-.
  rewrite Hdata in Hn, Hc. simpl in Hn, Hc. injection Hn as <-. injection Hc as <-.
  eexists blocks, _. split; [now apply mapM_Forall2 |]. split.
  - apply mapM_Forall2 in Hb. clear - Hb.
    induction Hb as [| conv block convs blocks Hcb _ IH]; constructor; [| exact IH].
    now apply summary_lines_five in Hcb.
  - split; [reflexivity |]. destruct paged; [right; eauto | now left].
Qed.

Lemma search_results_header_and_blocks_witness :
  exists blocks footer,
    Forall2 (fun conv block => summary_lines (L := Sample.lib) conv = Ok block)
      one_summary blocks
    /\ Forall (fun block => List.length block = 5%nat) blocks
    /\ String.concat nl (("Found 40 conversations:" ++ nl) :: one_summary_block)
       = String.concat nl
           (("Found " ++ "40" ++ " conversations:" ++ nl) :: List.concat blocks ++ footer)
    /\ (footer = [] \/ exists line, footer = [line]).
Proof.
  apply (@search_results_header_and_blocks Sample.lib
           (one_result [("totalRecords", VInt 40)]) [("totalRecords", VInt 40)]
           one_summary _ eq_refl ltac:(discriminate) eq_refl).
  vm_compute. reflexivity.
Defined.

(** X2.  The footer: on a non-empty [data] that renders, the text ends with
    an empty line and "Page X of Y" exactly when [meta.pageCount] compares
    greater than 1, with [X] the [meta.pageNumber] (1 when missing); a missing
    [pageCount] counts as 1 and gives no footer. *)
Theorem search_results_footer {L : PyLib}
    (r m : list (string * value)) (convs : list value) (out : string) :
  dget r "data" (VList []) = VList convs -> convs <> [] ->
  dget r "meta" (VDict []) = VDict m ->
  format_search_results (VDict r) = Ok out ->
  exists blocks body paged,
    mapM summary_lines convs = Ok blocks
    /\ body = String.concat nl
                (("Found " ++ py_str (dget m "totalRecords"
                                        (VInt (Z.of_nat (List.length convs))))
                           ++ " conversations:" ++ nl)
                 :: List.concat blocks)
    /\ py_gt_int (dget m "pageCount" (VInt 1)) 1 = Ok paged
    /\ out = (if paged
              then body ++ nl ++ nl ++ "Page " ++ py_str (dget m "pageNumber" (VInt 1))
                        ++ " of " ++ py_str (dget m "pageCount" VNone)
              else body)
    /\ (lookup "pageCount" m = None -> paged = false)
    /\ (forall k, lookup "pageCount" m = Some (VInt k) -> paged = (1 <? k)%Z).
Proof.
  intros Hdata Hne Hmeta H.
  apply format_search_results_layout in H;
    [| rewrite Hdata; destruct convs; [now contradiction Hne | reflexivity]].
  destruct H as (m' & n & convs' & blocks & paged & Hm & Hn & Hc & Hb & Hp & ->).
  rewrite Hmeta in Hm. injection Hm as <-.
  rewrite Hdata in Hn, Hc. simpl in Hn, Hc. injection Hn as <-. injection Hc as <-.
  exists blocks. eexists. exists paged.
  split; [exact Hb |]. split; [reflexivity |]. split; [exact Hp |]. split; [| split].
  - destruct paged.
    + rewrite app_comm_cons, concat_snoc by discriminate. reflexivity.
    + rewrite app_nil_r. reflexivity.
  - intros Hnone. unfold dget in Hp. rewrite Hnone in Hp.
    rewrite py_gt_int_int in Hp. now injection Hp as <-.
  - intros k Hk. unfold dget in Hp. rewrite Hk in Hp.
    rewrite py_gt_int_int in Hp. now injection Hp as <-.
Qed.

Lemma search_results_footer_witness :
  format_search_results (L := Sample.lib)
    (VDict (one_result [("pageCount", VInt 3); ("pageNumber", VInt 2)]))
  = Ok (String.concat nl (("Found 1 conversations:" ++ nl) :: one_summary_block)
        ++ nl ++ nl ++ "Page 2 of 3").
Proof.
  destruct (format_search_results (L := Sample.lib)
              (VDict (one_result [("pageCount", VInt 3); ("pageNumber", VInt 2)])))
    as [out | e] eqn:H; [| vm_compute in H; discriminate H].
  destruct (@search_results_footer Sample.lib
              (one_result [("pageCount", VInt 3); ("pageNumber", VInt 2)])
              [("pageCount", VInt 3); ("pageNumber", VInt 2)] one_summary out
              eq_refl ltac:(discriminate) eq_refl H)
    as (blocks & body & paged & Hb & -> & _ & -> & _ & Hk).
  rewrite (Hk 3%Z eq_refl).
  vm_compute in Hb. injection Hb as <-. reflexivity.
Defined.

(** X3.  A [meta.pageCount] that is present but is not a number (a string,
    null) makes the formatter raise [TypeError] on a non-empty [data], after
    every item has rendered; the footer is not simply dropped. *)
Theorem search_results_page_count_type {L : PyLib}
    (r m : list (string * value)) (convs : list value)
    (blocks : list (list string)) (pc : value) :
  dget r "data" (VList []) = VList convs -> convs <> [] ->
  dget r "meta" (VDict []) = VDict m ->
  lookup "pageCount" m = Some pc -> num_of pc = None ->
  mapM summary_lines convs = Ok blocks ->
  format_search_results (VDict r) = Raise TypeError.
Proof.
  intros Hdata Hne Hmeta Hpc Hnum Hb.
  unfold format_search_results. cbn [py_get as_dict bind].
  rewrite Hdata, Hmeta.
  destruct convs as [| conv convs]; [now contradiction Hne |].
  cbn [truthy negb as_dict py_len py_iter bind]. rewrite Hb. cbn [bind].
  unfold dget at 1. rewrite Hpc. unfold py_gt_int. rewrite Hnum. reflexivity.
Qed.

Lemma search_results_page_count_type_witness :
  format_search_results (L := Sample.lib) (VDict (one_result [("pageCount", VStr "3")]))
  = Raise TypeError.
Proof.
  apply (@search_results_page_count_type Sample.lib
           (one_result [("pageCount", VStr "3")])
           [("pageCount", VStr "3")] one_summary [one_summary_block]
           (VStr "3") eq_refl ltac:(discriminate) eq_refl eq_refl eq_refl eq_refl).
Defined.

(** X4.  The participants text of a summary looks at the first three
    participants and at the length of the list, and at nothing else: two
    lists that agree on both give the same text or the same exception,
    whatever the entries after the third are. *)
Theorem participant_str_first_three (ps ps' : list value) :
  firstn 3 ps = firstn 3 ps' -> List.length ps = List.length ps' ->
  participant_str (VList ps) = participant_str (VList ps').
Proof.
  intros Hfirst Hlen. unfold participant_str.
  cbn [py_slice_to py_iter py_len bind]. rewrite Hfirst, Hlen. reflexivity.
Qed.

Lemma participant_str_first_three_witness :
  participant_str (VList (three_named ++ [VInt 5; VNone]))
  = participant_str (VList (three_named ++ [VDict [("name", VStr "Dee")]; VStr "x"])).
Proof.
  apply (participant_str_first_three
           (three_named ++ [VInt 5; VNone])
           (three_named ++ [VDict [("name", VStr "Dee")]; VStr "x"])
           eq_refl eq_refl).
Defined.

Lemma mapM_as_str_raises (vs : list value) (v : value) :
  In v vs -> (forall s, v <> VStr s) -> mapM as_str vs = Raise TypeError.
Proof.
  intros Hin Hv. induction vs as [| w vs IH]; [destruct Hin |].
  simpl. destruct w as [| b | n | q | s | l | d]; try reflexivity.
  destruct Hin as [<- | Hin]; [now contradiction (Hv s) |].
  simpl. rewrite (IH Hin). reflexivity.
Qed.

(** X5.  When one of the first three participants resolves to a display
    name that is not a string (an [email] of null and no name, say), the
    participants text of the list formatter raises [TypeError]: the names
    are joined as they are, not converted. *)
Theorem participant_str_needs_strings (ps names : list value) (v : value) :
  mapM display_name (firstn 3 ps) = Ok names ->
  In v names -> (forall s, v <> VStr s) ->
  participant_str (VList ps) = Raise TypeError.
Proof.
  intros Hnames Hin Hv. unfold participant_str, py_join.
  cbn [py_slice_to py_iter bind]. rewrite Hnames. cbn [bind].
  rewrite (mapM_as_str_raises names v Hin Hv). reflexivity.
Qed.

Lemma participant_str_needs_strings_witness :
  participant_str (VList [VDict [("name", VStr "Ann")]; VDict [("email", VNone)]])
  = Raise TypeError.
Proof.
  apply (participant_str_needs_strings
           [VDict [("name", VStr "Ann")]; VDict [("email", VNone)]]
           [VStr "Ann"; VNone] VNone eq_refl
           ltac:(right; left; reflexivity) ltac:(intros s; discriminate)).
Defined.

(* ================================================================== *)
(** ** Further properties of the detail formatter *)
(* ================================================================== *)

(** X6.  The line of a participant whose [name] and [email], where present,
    are strings: the display name is the name when non-empty, else the email
    when present, else "Unknown"; the email follows in parentheses exactly
    when it is non-empty and differs from the display name, so a participant
    known by email only is listed by that email once. *)
Theorem participant_line_cases {L : PyLib}
    (d : list (string * value)) (name email : option string) :
  lookup "name" d = option_map VStr name ->
  lookup "email" d = option_map VStr email ->
  let shown :=
    match name, email with
    | Some n, Some e => if n =? "" then e else n
    | Some n, None => if n =? "" then "Unknown" else n
    | None, Some e => e
    | None, None => "Unknown"
    end in
  participant_line (VDict d)
  = Ok (VStr match email with
             | Some e =>
                 if (e =? "") || (shown =? e) then "  - " ++ shown
                 else "  - " ++ shown ++ " (" ++ e ++ ")"
             | None => "  - " ++ shown
             end).
Proof.
  intros Hname Hemail shown. subst shown.
  unfold participant_line. rewrite display_name_dict.
  unfold py_get, dget. cbn [as_dict bind]. rewrite Hname, Hemail.
  destruct name as [n |], email as [e |]; cbn [option_map truthy bind].
  - destruct (n =? "") eqn:En; cbn [negb truthy py_eq py_str].
    + rewrite String.eqb_refl. destruct (e =? ""); reflexivity.
    + destruct (e =? ""), (n =? e); reflexivity.
  - destruct (n =? ""); reflexivity.
  - cbn [truthy py_eq py_str]. rewrite String.eqb_refl.
    destruct (e =? ""); reflexivity.
  - reflexivity.
Qed.

Lemma participant_line_cases_witness :
  participant_line (L := Sample.lib) (VDict [("email", VStr "bob@x.io")])
  = Ok (VStr "  - bob@x.io")
  /\ participant_line (L := Sample.lib)
       (VDict [("name", VStr "Ann"); ("email", VStr "ann@x.io")])
     = Ok (VStr "  - Ann (ann@x.io)").
Proof.
  split.
  - apply (@participant_line_cases Sample.lib [("email", VStr "bob@x.io")]
             None (Some "bob@x.io") eq_refl eq_refl).
  - apply (@participant_line_cases Sample.lib
             [("name", VStr "Ann"); ("email", VStr "ann@x.io")]
             (Some "Ann") (Some "ann@x.io") eq_refl eq_refl).
Defined.

(** X7.  The two shapes of a detail response render alike: a result with no
    truthy top-level [attributes] and no top-level [id], whose [data] holds
    the attributes, gives what the flat result with the same attributes
    gives.  An [id] inside [data] is never read. *)
Theorem format_conversation_nested {L : PyLib}
    (r d attrs : list (string * value)) :
  truthy (dget r "attributes" (VDict [])) = false ->
  lookup "id" r = None ->
  lookup "data" r = Some (VDict d) ->
  lookup "attributes" d = Some (VDict attrs) ->
  format_conversation (VDict r)
  = format_conversation (VDict [("attributes", VDict attrs)]).
Proof.
  intros Hfalsy Hid Hdata Hattrs.
  assert (HL : detail_attrs (VDict r) = Ok (VDict attrs)).
  { unfold detail_attrs, py_get. cbn [as_dict bind]. rewrite Hfalsy. cbn [negb].
    unfold dget at 1. rewrite Hdata. cbn [as_dict bind].
    unfold dget. rewrite Hattrs. reflexivity. }
  assert (HR : detail_attrs (VDict [("attributes", VDict attrs)]) = Ok (VDict attrs)).
  { destruct attrs; reflexivity. }
  unfold format_conversation, conversation_lines.
  rewrite HL, HR. cbn [bind as_dict].
  replace (dget r "id" (VStr "unknown")) with (VStr "unknown")
    by (unfold dget; now rewrite Hid).
  reflexivity.
Qed.

Lemma format_conversation_nested_witness :
  format_conversation (L := Sample.lib)
    (VDict [("data", VDict [("id", VStr "c9");
                            ("attributes", VDict [("title", VStr "Demo")])])])
  = format_conversation (L := Sample.lib)
      (VDict [("attributes", VDict [("title", VStr "Demo")])]).
Proof.
  apply (@format_conversation_nested Sample.lib
           [("data", VDict [("id", VStr "c9");
                            ("attributes", VDict [("title", VStr "Demo")])])]
           [("id", VStr "c9"); ("attributes", VDict [("title", VStr "Demo")])]
           [("title", VStr "Demo")] eq_refl eq_refl eq_refl eq_refl).
Defined.

Lemma concat_app (sep : string) (l1 l2 : list string) :
  l1 <> [] -> l2 <> [] ->
  String.concat sep (l1 ++ l2) = String.concat sep l1 ++ sep ++ String.concat sep l2.
Proof.
  intros H1 H2. induction l1 as [| y l1 IH]; [now contradiction H1 |].
  destruct l1 as [| z l1].
  - destruct l2; [now contradiction H2 | reflexivity].
  - change (String.concat sep ((y :: z :: l1) ++ l2))
      with (y ++ sep ++ String.concat sep ((z :: l1) ++ l2)).
    rewrite IH by discriminate.
    change (String.concat sep (y :: z :: l1)) with (y ++ sep ++ String.concat sep (z :: l1)).
    rewrite !append_assoc. reflexivity.
Qed.

(** X8.  Whenever the detail formatter renders, its text ends with an empty
    line, the heading "## Transcript", an empty line and the transcript
    text, which is what [format_transcript] returns for [attributes.transcript];
    without that key it is the placeholder. *)
Theorem transcript_section_last {L : PyLib} (result : value) (out : string) :
  format_conversation result = Ok out ->
  exists a front text,
    detail_attrs result = Ok (VDict a)
    /\ format_transcript (dget a "transcript" (VDict [])) = Ok (VStr text)
    /\ out = front ++ nl ++ nl ++ "## Transcript" ++ nl ++ nl ++ text
    /\ (lookup "transcript" a = None -> text = "*No transcript available*").
Proof.
  intros H. apply format_conversation_ok in H. destruct H as (strs & Hlines & ->).
  apply conversation_lines_ok in Hlines.
  destruct Hlines as (r & a & created & ps & plines & tt & il
                      & _ & Ha & _ & _ & _ & Htt & _ & Hlines).
  rewrite !app_assoc in Hlines.
  apply map_eq_app in Hlines.
  destruct Hlines as (front & tail & -> & Hfront & Htail).
  destruct tail as [| t1 [| t2 [| t3 [| t4 [| t5 tail]]]]]; try discriminate Htail.
  injection Htail as -> -> -> <-.
  exists a, (String.concat nl front), t4.
  split; [exact Ha |]. split; [exact Htt |]. split.
  - rewrite concat_app; [reflexivity | | discriminate].
    intros ->. discriminate Hfront.
  - intros Hnone. unfold dget in Htt. rewrite Hnone in Htt.
    now injection Htt as <-.
Qed.

Lemma transcript_section_last_witness :
  exists front,
    format_conversation (L := Sample.lib) (VDict [])
    = Ok (front ++ nl ++ nl ++ "## Transcript" ++ nl ++ nl ++ "*No transcript available*").
Proof.
  destruct (format_conversation (L := Sample.lib) (VDict [])) as [out | e] eqn:H;
    [| vm_compute in H; discriminate H].
  destruct (@transcript_section_last Sample.lib (VDict []) out H)
    as (a & front & text & Ha & _ & -> & Hnone).
  vm_compute in Ha. injection Ha as <-.
  rewrite (Hnone eq_refl). exists front. reflexivity.
Defined.

(* ================================================================== *)
(** ** Further properties of the transcript formatter *)
(* ================================================================== *)

Lemma mapM_segment_lines {L : PyLib} (ds : list (list (string * value))) :
  mapM (fun seg =>
          speaker <- py_get seg "speaker" (VStr "Unknown") ;;
          text <- py_get seg "text" (VStr "") ;;
          Ok ("**" ++ py_str speaker ++ ":** " ++ py_str text))
       (map VDict ds)
  = Ok (map (fun d => "**" ++ py_str (dget d "speaker" (VStr "Unknown"))
                           ++ ":** " ++ py_str (dget d "text" (VStr ""))) ds).
Proof.
  induction ds as [| d ds IH]; [reflexivity |].
  cbn [map mapM]. rewrite IH. reflexivity.
Qed.

(** X9.  A transcript given as a mapping with [segments] and no [text]
    renders one turn per segment, in order, each as
    [**speaker:** text] with "Unknown" and the empty text as defaults:
    unlike the list shape it merges no neighbours and skips no empty text,
    and an empty [segments] list gives the empty text, not the placeholder. *)
Theorem format_transcript_segments_mapping {L : PyLib}
    (d : list (string * value)) (ds : list (list (string * value))) :
  lookup "text" d = None ->
  lookup "segments" d = Some (VList (map VDict ds)) ->
  format_transcript (VDict d)
  = Ok (VStr (String.concat (nl ++ nl)
                (map (fun seg => "**" ++ py_str (dget seg "speaker" (VStr "Unknown"))
                                      ++ ":** " ++ py_str (dget seg "text" (VStr "")))
                     ds)))
  /\ (ds = [] -> format_transcript (VDict d) = Ok (VStr "")).
Proof.
  intros Htext Hsegs.
  assert (E : format_transcript (VDict d)
              = Ok (VStr (String.concat (nl ++ nl)
                            (map (fun seg =>
                                    "**" ++ py_str (dget seg "speaker" (VStr "Unknown"))
                                    ++ ":** " ++ py_str (dget seg "text" (VStr "")))
                                 ds)))).
  { unfold format_transcript.
    destruct d as [| kv d]; [discriminate Hsegs |].
    cbn [truthy negb]. rewrite Htext, Hsegs. cbn [py_iter bind].
    rewrite mapM_segment_lines. reflexivity. }
  split; [exact E |]. intros ->. exact E.
Qed.

Lemma format_transcript_segments_mapping_witness :
  format_transcript (L := Sample.lib)
    (VDict [("segments",
             VList [ VDict [("speaker", VStr "A"); ("text", VStr "Hi")];
                     VDict [("speaker", VStr "A"); ("text", VStr "")];
                     VDict [("text", VStr "there")] ])])
  = Ok (VStr ("**A:** Hi" ++ nl ++ nl ++ "**A:** " ++ nl ++ nl ++ "**Unknown:** there")).
Proof.
  apply (proj1 (@format_transcript_segments_mapping Sample.lib
                  [("segments",
                    VList [ VDict [("speaker", VStr "A"); ("text", VStr "Hi")];
                            VDict [("speaker", VStr "A"); ("text", VStr "")];
                            VDict [("text", VStr "there")] ])]
                  [ [("speaker", VStr "A"); ("text", VStr "Hi")];
                    [("speaker", VStr "A"); ("text", VStr "")];
                    [("text", VStr "there")] ]
                  eq_refl eq_refl)).
Defined.

Lemma format_conversation_type_error {L : PyLib}
    (result : value) (lines : list value) (v : value) :
  conversation_lines result = Ok lines ->
  In v lines -> (forall s, v <> VStr s) ->
  format_conversation result = Raise TypeError.
Proof.
  intros Hlines Hin Hv. unfold format_conversation, py_join.
  rewrite Hlines. cbn [bind].
  rewrite (mapM_as_str_raises lines v Hin Hv). reflexivity.
Qed.

(** X10.  A transcript mapping with a [text] key is answered with that
    value as it is, whatever else the mapping holds; when the value is not a
    string the detail formatter, which joins it with its other lines,
    raises [TypeError]. *)
Theorem transcript_text_verbatim {L : PyLib}
    (result : value) (lines : list value)
    (a d : list (string * value)) (text : value) :
  conversation_lines result = Ok lines ->
  detail_attrs result = Ok (VDict a) ->
  lookup "transcript" a = Some (VDict d) ->
  lookup "text" d = Some text ->
  format_transcript (VDict d) = Ok text
  /\ ((forall s, text <> VStr s) -> format_conversation result = Raise TypeError).
Proof.
  intros Hlines Ha Htr Htext.
  assert (E : format_transcript (VDict d) = Ok text).
  { unfold format_transcript. destruct d as [| kv d]; [discriminate Htext |].
    cbn [truthy negb]. rewrite Htext. reflexivity. }
  split; [exact E |]. intros Hv.
  apply (format_conversation_type_error result lines text Hlines); [| exact Hv].
  apply conversation_lines_ok in Hlines.
  destruct Hlines as (r & a' & created & ps & plines & tt & il
                      & _ & Ha' & _ & _ & _ & Htt & _ & ->).
  rewrite Ha in Ha'. injection Ha' as <-.
  unfold dget in Htt. rewrite Htr, E in Htt. injection Htt as <-.
  rewrite !in_app_iff. right. right. right. simpl. tauto.
Qed.

Lemma transcript_text_verbatim_witness :
  format_conversation (L := Sample.lib) numeric_text = Raise TypeError.
Proof.
  destruct (conversation_lines (L := Sample.lib) numeric_text) as [lines | e] eqn:H;
    [| vm_compute in H; discriminate H].
  apply (proj2 (@transcript_text_verbatim Sample.lib numeric_text lines
                  [("transcript", VDict [("text", VInt 7)])] [("text", VInt 7)] (VInt 7)
                  H eq_refl eq_refl eq_refl)).
  intros s. discriminate.
Defined.

(** X11.  An intelligence block whose [value] is truthy and not a string (a
    number, a list) is put among the lines as it is, so the detail formatter
    raises [TypeError] instead of rendering. *)
Theorem intelligence_value_needs_string {L : PyLib}
    (result : value) (lines : list value)
    (a entries block : list (string * value)) (key : string) :
  conversation_lines result = Ok lines ->
  detail_attrs result = Ok (VDict a) ->
  chosen_intelligence a = VDict entries ->
  In (key, VDict block) entries ->
  truthy (dget block "value" (VStr "")) = true ->
  (forall s, dget block "value" (VStr "") <> VStr s) ->
  format_conversation result = Raise TypeError.
Proof.
  intros Hlines Ha Hchosen Hin Ht Hv.
  apply (format_conversation_type_error result lines
           (dget block "value" (VStr "")) Hlines); [| exact Hv].
  apply conversation_lines_ok in Hlines.
  destruct Hlines as (r & a' & created & ps & plines & tt & il
                      & _ & Ha' & _ & _ & _ & _ & Hil & ->).
  rewrite Ha in Ha'. injection Ha' as <-.
  rewrite Hchosen in Hil. unfold intel_lines in Hil.
  assert (Hne : truthy (VDict entries) = true)
    by (destruct entries; [destruct Hin | reflexivity]).
  rewrite Hne in Hil. cbn [as_dict bind] in Hil. injection Hil as <-.
  rewrite !in_app_iff. right. right. left.
  match goal with |- In _ (intel_section ?x) => set (il := x) end.
  assert (Hmem : In (dget block "value" (VStr "")) il).
  { apply in_flat_map. exists (key, VDict block). split; [exact Hin |].
    cbn [fst snd intel_entry]. rewrite Ht. right. left. reflexivity. }
  destruct il; [destruct Hmem | right; right; exact Hmem].
Qed.

Lemma intelligence_value_needs_string_witness :
  format_conversation (L := Sample.lib) numeric_intelligence = Raise TypeError.
Proof.
  destruct (conversation_lines (L := Sample.lib) numeric_intelligence)
    as [lines | e] eqn:H; [| vm_compute in H; discriminate H].
  apply (@intelligence_value_needs_string Sample.lib numeric_intelligence lines
           [("extractedIntelligence",
             VDict [("score", VDict [("title", VStr "Score"); ("value", VInt 8)])])]
           [("score", VDict [("title", VStr "Score"); ("value", VInt 8)])]
           [("title", VStr "Score"); ("value", VInt 8)] "score"
           H eq_refl eq_refl ltac:(left; reflexivity) eq_refl
           ltac:(intros s; discriminate)).
Defined.

(** X12.  A [createdAt] that is truthy and not a string (an epoch number,
    say) makes the date step raise [AttributeError], which its [except]
    clause does not catch: the block of that conversation in the list
    formatter and the whole detail formatter raise it. *)
Theorem created_at_needs_string {L : PyLib} (created : value) :
  truthy created = true -> (forall s, created <> VStr s) ->
  format_date created = Raise AttributeError
  /\ (forall c a,
        dget c "attributes" (VDict []) = VDict a ->
        dget a "createdAt" (VStr "") = created ->
        summary_lines (VDict c) = Raise AttributeError)
  /\ (forall r a,
        detail_attrs (VDict r) = Ok (VDict a) ->
        dget a "createdAt" (VStr "") = created ->
        format_conversation (VDict r) = Raise AttributeError).
Proof.
  intros Ht Hv.
  assert (E : format_date created = Raise AttributeError).
  { unfold format_date. rewrite Ht.
    destruct created; try reflexivity. now contradiction (Hv s). }
  split; [exact E |]. split.
  - intros c a Ha Hc. unfold summary_lines, py_get. cbn [as_dict bind].
    rewrite Ha. cbn [as_dict bind]. rewrite Hc, E. reflexivity.
  - intros r a Ha Hc. unfold format_conversation, conversation_lines.
    rewrite Ha. cbn [as_dict bind]. rewrite Hc, E. reflexivity.
Qed.

Lemma created_at_needs_string_witness :
  format_conversation (L := Sample.lib)
    (VDict [("attributes", VDict [("createdAt", VInt 1700000000)])])
  = Raise AttributeError.
Proof.
  apply (proj2 (proj2 (@created_at_needs_string Sample.lib (VInt 1700000000)
                         eq_refl ltac:(intros s; discriminate)))
           [("attributes", VDict [("createdAt", VInt 1700000000)])]
           [("createdAt", VInt 1700000000)] eq_refl eq_refl).
Defined.

(** The loop stops at the first segment it cannot read. *)
Lemma foldM_segment_step_raises {L : PyLib}
    (pre post : list value) (seg : value) (vs : list (value * string))
    (st : loop_state) (e : exn) :
  mapM segment_view pre = Ok vs ->
  segment_view seg = Raise e ->
  foldM segment_step st (pre ++ seg :: post)%list = Raise e.
Proof.
  revert vs st. induction pre as [| p pre IH]; intros vs st Hpre Hseg.
  - cbn [app foldM]. unfold segment_step. rewrite Hseg. reflexivity.
  - cbn [mapM] in Hpre. bind_inv Hpre as v Hv. bind_inv Hpre as vs' Hvs'.
    cbn [app foldM]. unfold segment_step at 1. rewrite Hv. cbn [bind].
    now apply (IH vs').
Qed.

(** X23.  In the list shape a segment whose [speaker] is present and not a
    mapping (null, a bare name) makes the transcript formatter raise
    [AttributeError], wherever it stands behind readable segments and
    whatever its words are: the speaker is read before the empty-text test,
    so even a segment that would be skipped is fatal. *)
Theorem segment_speaker_needs_mapping {L : PyLib}
    (pre post : list value) (vs : list (value * string))
    (d : list (string * value)) (speaker : value) :
  mapM segment_view pre = Ok vs ->
  lookup "speaker" d = Some speaker ->
  (forall m, speaker <> VDict m) ->
  format_transcript (VList (pre ++ VDict d :: post)%list) = Raise AttributeError.
Proof.
  intros Hpre Hsp Hv.
  rewrite format_transcript_list.
  rewrite (foldM_segment_step_raises pre post (VDict d) vs initial_state
             AttributeError Hpre); [reflexivity |].
  unfold segment_view, py_get. cbn [as_dict bind]. unfold dget. rewrite Hsp.
  unfold display_name, py_get.
  destruct speaker; try reflexivity. now contradiction (Hv d0).
Qed.

Lemma segment_speaker_needs_mapping_witness :
  format_transcript (L := Sample.lib)
    (VList [ segment [("name", VStr "A")] ["Hi"];
             VDict [("speaker", VNone); ("words", VList [])] ])
  = Raise AttributeError.
Proof.
  apply (@segment_speaker_needs_mapping Sample.lib
           [segment [("name", VStr "A")] ["Hi"]] []
           [(VStr "A", "Hi")]
           [("speaker", VNone); ("words", VList [])] VNone
           eq_refl eq_refl ltac:(intros m; discriminate)).
Defined.

(* ================================================================== *)
(** ** The request methods *)
(* ================================================================== *)

Import Methods.

Lemma flag_text_bool {L : PyLib} (b : bool) :
  flag_text (VBool b) = VStr (if b then "true" else "false").
Proof. destruct b; reflexivity. Qed.

(** X13.  [search_conversations] makes exactly one call, to
    "/conversations", through the client's configured connection; its
    parameters start with [page], [size] and [detailedTranscript], and each
    of the five optional parameters is there exactly when its argument is
    truthy, so an empty string counts as absent.  The title and the two
    e-mail filters are passed on as given; the date bounds are the dates
    followed by "T00:00:00Z" and "T23:59:59Z", with no check of their shape.
    What comes back is the upstream answer, or its error. *)
Theorem search_conversations_request {L : PyLib}
    (upstream : list get_call -> get_call -> result value)
    (self : AttentionClient.t)
    (query from_date to_date participant_email owner_email page size flag : value)
    (log : list get_call) :
  exists params,
    let call := mkCall (AttentionClient.client self) "/conversations" params in
    search_conversations upstream self query from_date to_date participant_email
      owner_email page size flag log
    = (match upstream log call with
       | Ok body => Done body
       | Raise e => Failed (PyExn e)
       end, (log ++ [call])%list)
    /\ firstn 3 params
       = [("page", page); ("size", size); ("detailedTranscript", flag_text flag)]
    /\ NoDup (map fst params)
    /\ lookup "filter[title]" params = (if truthy query then Some query else None)
    /\ lookup "fromDateTime" params
       = (if truthy from_date
          then Some (VStr (py_str from_date ++ "T00:00:00Z")) else None)
    /\ lookup "toDateTime" params
       = (if truthy to_date
          then Some (VStr (py_str to_date ++ "T23:59:59Z")) else None)
    /\ lookup "filter[participants.email]" params
       = (if truthy participant_email then Some participant_email else None)
    /\ lookup "filter[owner.email]" params
       = (if truthy owner_email then Some owner_email else None)
    /\ List.length params
       = (3 + List.length (filter truthy
                             [query; from_date; to_date; participant_email; owner_email]))%nat.
Proof.
  unfold search_conversations, client_get.
  eexists. cbv zeta. split; [reflexivity |]. cbn [filter].
  destruct (truthy query), (truthy from_date), (truthy to_date),
    (truthy participant_email), (truthy owner_email);
    (split; [reflexivity |]);
    (split; [cbn [app map fst];
             repeat (constructor;
                     [cbn [In]; intros H;
                      repeat (destruct H as [H | H]; [discriminate H |]); exact H |]);
             constructor |]);
    repeat split; reflexivity.
Qed.

(** X14.  [get_conversation] makes exactly one call, to "/conversations/"
    followed by the identifier as it was given, unchecked (the empty
    identifier gives "/conversations/"); the two flags travel as the
    lower-case texts "true" and "false". *)
Theorem get_conversation_request {L : PyLib}
    (upstream : list get_call -> get_call -> result value)
    (self : AttentionClient.t) (conversation_id : string)
    (detailed internal : bool) (log : list get_call) :
  let call :=
    mkCall (AttentionClient.client self) ("/conversations/" ++ conversation_id)
      [ ("detailedTranscript", VStr (if detailed then "true" else "false"));
        ("filter[include_internal_participants]",
         VStr (if internal then "true" else "false")) ] in
  get_conversation upstream self (VStr conversation_id) (VBool detailed)
    (VBool internal) log
  = (match upstream log call with
     | Ok body => Done body
     | Raise e => Failed (PyExn e)
     end, (log ++ [call])%list).
Proof.
  unfold get_conversation, client_get. rewrite !flag_text_bool. reflexivity.
Qed.

Lemma append_cons_nonempty (a : string) (c : ascii) (r : string) :
  truthy (VStr (a ++ String c r)) = true.
Proof. destruct a; reflexivity. Qed.

Lemma strftime_ymd_truthy (dt : datetime) : truthy (VStr (strftime_ymd dt)) = true.
Proof. unfold strftime_ymd. apply append_cons_nonempty. Qed.

(** X15.  [list_recent_conversations] delegates to the search with both
    date bounds and nothing else: when the start date can be computed it
    makes one call to "/conversations" whose parameters are exactly page 1,
    the given size, [detailedTranscript] "false", the start date at
    00:00:00Z and today's date at 23:59:59Z, each date as [strftime] prints
    it (a year below 1000 on fewer than four digits); when it cannot, the
    error comes back and no call is made. *)
Theorem list_recent_conversations_request {L : PyLib}
    (upstream : list get_call -> get_call -> result value)
    (now : clock) (self : AttentionClient.t) (days_back size : value)
    (log : list get_call) :
  match minus_days now (now_first now) days_back with
  | Failed e =>
      list_recent_conversations upstream now self days_back size log = (Failed e, log)
  | Done start =>
      let call :=
        mkCall (AttentionClient.client self) "/conversations"
          [ ("page", VInt 1);
            ("size", size);
            ("detailedTranscript", VStr "false");
            ("fromDateTime", VStr (strftime_ymd start ++ "T00:00:00Z"));
            ("toDateTime", VStr (strftime_ymd (now_second now) ++ "T23:59:59Z")) ] in
      list_recent_conversations upstream now self days_back size log
      = (match upstream log call with
         | Ok body => Done body
         | Raise e => Failed (PyExn e)
         end, (log ++ [call])%list)
  end.
Proof.
  unfold list_recent_conversations.
  destruct (minus_days now (now_first now) days_back) as [start | e]; [| reflexivity].
  unfold search_conversations. rewrite !strftime_ymd_truthy. reflexivity.
Qed.

Lemma list_recent_conversations_request_witness :
  snd (list_recent_conversations (L := Sample.lib) (fun _ _ => Ok (VDict []))
         march_clock (client_of "k") (VInt 7) (VInt 20) [])
  = [ mkCall (AttentionClient.client (client_of "k")) "/conversations"
        [ ("page", VInt 1); ("size", VInt 20); ("detailedTranscript", VStr "false");
          ("fromDateTime", VStr "2024-03-03T00:00:00Z");
          ("toDateTime", VStr "2024-03-10T23:59:59Z") ] ]
  /\ snd (list_recent_conversations (L := Sample.lib) (fun _ _ => Ok (VDict []))
            march_clock (client_of "k") (VInt 374078) (VInt 20) [])
     = [ mkCall (AttentionClient.client (client_of "k")) "/conversations"
           [ ("page", VInt 1); ("size", VInt 20); ("detailedTranscript", VStr "false");
             ("fromDateTime", VStr "999-12-31T00:00:00Z");
             ("toDateTime", VStr "2024-03-10T23:59:59Z") ] ]
  /\ list_recent_conversations (L := Sample.lib) (fun _ _ => Ok (VDict []))
       march_clock (client_of "k") (VStr "7") (VInt 20) []
     = (Failed (PyExn TypeError), []).
Proof.
  split; [| split].
  - exact (f_equal snd
             (@list_recent_conversations_request Sample.lib (fun _ _ => Ok (VDict []))
                march_clock (client_of "k") (VInt 7) (VInt 20) []
              : list_recent_conversations (L := Sample.lib) (fun _ _ => Ok (VDict []))
                  march_clock (client_of "k") (VInt 7) (VInt 20) []
                = (Done (VDict []), _))).
  - exact (f_equal snd
             (@list_recent_conversations_request Sample.lib (fun _ _ => Ok (VDict []))
                march_clock (client_of "k") (VInt 374078) (VInt 20) []
              : list_recent_conversations (L := Sample.lib) (fun _ _ => Ok (VDict []))
                  march_clock (client_of "k") (VInt 374078) (VInt 20) []
                = (Done (VDict []), _))).
  - exact (@list_recent_conversations_request Sample.lib (fun _ _ => Ok (VDict []))
             march_clock (client_of "k") (VStr "7") (VInt 20) []).
Defined.

(* ================================================================== *)
(** ** The dispatcher *)
(* ================================================================== *)

Import Dispatch.

Lemma client_get_log (upstream : list get_call -> get_call -> result value)
    (self : AttentionClient.t) (path : string) (params : list (string * value))
    (log : list get_call) :
  snd (client_get upstream self path params log)
  = (log ++ [mkCall (AttentionClient.client self) path params])%list.
Proof. reflexivity. Qed.

Lemma respond_state {L : PyLib} (format : value -> result string)
    (outcome : attempt value * list get_call) (st : state) :
  snd (respond format outcome st)
  = mkServer (_client st) (environ st) (snd outcome).
Proof.
  unfold respond. destruct (fst outcome) as [result | e]; [| reflexivity].
  destruct (format result); reflexivity.
Qed.

(** What the constructor makes of the environment. *)
Lemma init_from_environment (env : list (string * string)) :
  fst (AttentionClient.init None (AttentionClient.mkWorld env []))
  = match AttentionClient.getenv "ATTENTION_API_KEY" env with
    | Some k =>
        if k =? "" then Raise ValueError
        else if is_ascii k then Ok (client_of k)
        else Raise UnicodeEncodeError
    | None => Raise ValueError
    end.
Proof.
  destruct (AttentionClient.getenv "ATTENTION_API_KEY" env) as [k |] eqn:Henv.
  - destruct (k =? "") eqn:Hk.
    + unfold AttentionClient.init.
      cbn [AttentionClient.opt_truthy AttentionClient.environ].
      rewrite Henv, Hk. reflexivity.
    + apply String.eqb_neq in Hk.
      rewrite (init_with_key None (AttentionClient.mkWorld env []) k Hk
                 (or_intror (conj eq_refl Henv))).
      destruct (is_ascii k); reflexivity.
  - unfold AttentionClient.init.
    cbn [AttentionClient.opt_truthy AttentionClient.environ].
    rewrite Henv. reflexivity.
Qed.

(** X16.  With no client built yet and no non-empty [ATTENTION_API_KEY] in
    the environment, every call of the dispatcher, whatever the tool name
    and the arguments (an unknown name included), answers with the error of
    the client's constructor, makes no request, and leaves the client
    unbuilt, so that the next call tries again. *)
Theorem call_tool_without_credential {L : PyLib}
    (upstream : list get_call -> get_call -> result value) (now : clock)
    (name : string) (arguments : list (string * value)) (st : state) :
  _client st = None ->
  AttentionClient.opt_truthy
    (AttentionClient.getenv "ATTENTION_API_KEY" (environ st)) = false ->
  call_tool upstream now name arguments st = (Error (PyExn ValueError), st).
Proof.
  intros Hnone Henv. unfold call_tool, get_client. rewrite Hnone.
  rewrite init_from_environment.
  destruct (AttentionClient.getenv "ATTENTION_API_KEY" (environ st)) as [k |].
  - simpl in Henv. apply negb_false_iff in Henv. rewrite Henv. reflexivity.
  - reflexivity.
Qed.

Lemma call_tool_without_credential_witness :
  call_tool (L := Sample.lib) (fun _ _ => Ok (VDict [])) still_clock
    "no_such_tool" [] (idle [("ATTENTION_API_KEY", "")])
  = (Error (PyExn ValueError), idle [("ATTENTION_API_KEY", "")]).
Proof.
  apply (@call_tool_without_credential Sample.lib (fun _ _ => Ok (VDict []))
           still_clock "no_such_tool" [] (idle [("ATTENTION_API_KEY", "")])
           eq_refl eq_refl).
Defined.

(** X17.  Once a client is there, a name that is none of the three tools is
    answered with "Unknown tool: " and the name; nothing is sent and the
    state stays as it is. *)
Theorem call_tool_unknown {L : PyLib}
    (upstream : list get_call -> get_call -> result value) (now : clock)
    (name : string) (arguments : list (string * value)) (st : state)
    (c : AttentionClient.t) :
  _client st = Some c ->
  name <> "search_conversations" -> name <> "get_conversation" ->
  name <> "list_recent_conversations" ->
  call_tool upstream now name arguments st = (Text ("Unknown tool: " ++ name), st).
Proof.
  intros Hc H1 H2 H3. unfold call_tool, get_client. rewrite Hc.
  apply String.eqb_neq in H1, H2, H3. rewrite H1, H2, H3. reflexivity.
Qed.

Lemma call_tool_unknown_witness :
  call_tool (L := Sample.lib) (fun _ _ => Ok (VDict [])) still_clock
    "delete_conversation" [] (mkServer (Some (client_of "k")) [] [])
  = (Text "Unknown tool: delete_conversation", mkServer (Some (client_of "k")) [] []).
Proof.
  apply (@call_tool_unknown Sample.lib (fun _ _ => Ok (VDict [])) still_clock
           "delete_conversation" [] (mkServer (Some (client_of "k")) [] [])
           (client_of "k") eq_refl
           ltac:(discriminate) ltac:(discriminate) ltac:(discriminate)).
Defined.

(** X18.  [get_conversation] without a [conversation_id] among the
    arguments is answered with the [KeyError] of the missing key, and no
    request is made. *)
Theorem call_tool_missing_conversation_id {L : PyLib}
    (upstream : list get_call -> get_call -> result value) (now : clock)
    (arguments : list (string * value)) (st : state) (c : AttentionClient.t) :
  _client st = Some c ->
  lookup "conversation_id" arguments = None ->
  call_tool upstream now "get_conversation" arguments st
  = (Error (KeyError "conversation_id"), st).
Proof.
  intros Hc Hid. unfold call_tool, get_client. rewrite Hc.
  cbn [String.eqb Ascii.eqb Bool.eqb]. rewrite Hid. reflexivity.
Qed.

Lemma call_tool_missing_conversation_id_witness :
  call_tool (L := Sample.lib) (fun _ _ => Ok (VDict [])) still_clock
    "get_conversation" [("id", VStr "c1")] (mkServer (Some (client_of "k")) [] [])
  = (Error (KeyError "conversation_id"), mkServer (Some (client_of "k")) [] []).
Proof.
  apply (@call_tool_missing_conversation_id Sample.lib (fun _ _ => Ok (VDict []))
           still_clock [("id", VStr "c1")] (mkServer (Some (client_of "k")) [] [])
           (client_of "k") eq_refl eq_refl).
Defined.

Lemma one_call_through_snoc (c : AttentionClient.t) (log : list get_call)
    (path : string) (params : list (string * value)) :
  one_call_through c log (log ++ [mkCall (AttentionClient.client c) path params]).
Proof.
  eexists. split; [reflexivity |]. split; [simpl; lia |].
  constructor; [reflexivity | constructor].
Qed.

Lemma one_call_through_none (c : AttentionClient.t) (log : list get_call) :
  one_call_through c log log.
Proof.
  exists []. split; [now rewrite app_nil_r |]. split; [simpl; lia | constructor].
Qed.

Lemma call_tool_state_with_client {L : PyLib}
    (upstream : list get_call -> get_call -> result value) (now : clock)
    (name : string) (arguments : list (string * value)) (st : state)
    (c : AttentionClient.t) :
  _client st = Some c ->
  _client (snd (call_tool upstream now name arguments st)) = Some c
  /\ environ (snd (call_tool upstream now name arguments st)) = environ st
  /\ one_call_through c (calls st)
       (calls (snd (call_tool upstream now name arguments st))).
Proof.
  intros Hc. unfold call_tool, get_client. rewrite Hc.
  destruct (name =? "search_conversations").
  { rewrite respond_state. cbn [_client environ calls].
    repeat split; [exact Hc |]. apply one_call_through_snoc. }
  destruct (name =? "get_conversation").
  { destruct (lookup "conversation_id" arguments) as [cid |].
    - rewrite respond_state. cbn [_client environ calls].
      repeat split; [exact Hc |]. apply one_call_through_snoc.
    - cbn [snd]. repeat split; [exact Hc |]. apply one_call_through_none. }
  destruct (name =? "list_recent_conversations").
  { rewrite respond_state. cbn [_client environ calls].
    repeat split; [exact Hc |].
    unfold list_recent_conversations.
    destruct (minus_days now (now_first now) _) as [start | e].
    - apply one_call_through_snoc.
    - apply one_call_through_none. }
  cbn [snd]. repeat split; [exact Hc |]. apply one_call_through_none.
Qed.


(** X19.  A client that has been built is never replaced: after any call of
    the dispatcher the same client is still there, whatever the environment
    holds by then, and the call has made at most one request, through that
    client's connection (so with the key it was built with); earlier
    requests stay in the log. *)
Theorem call_tool_keeps_client {L : PyLib}
    (upstream : list get_call -> get_call -> result value) (now : clock)
    (name : string) (arguments : list (string * value)) (st : state)
    (c : AttentionClient.t) :
  _client st = Some c ->
  _client (snd (call_tool upstream now name arguments st)) = Some c
  /\ environ (snd (call_tool upstream now name arguments st)) = environ st
  /\ one_call_through c (calls st)
       (calls (snd (call_tool upstream now name arguments st))).
Proof.
  apply call_tool_state_with_client.
Qed.

Lemma call_tool_keeps_client_witness :
  _client (snd (call_tool (L := Sample.lib) (fun _ _ => Raise HTTPStatusError)
                  still_clock "search_conversations" [("query", VStr "demo")]
                  (mkServer (Some (client_of "k")) [("ATTENTION_API_KEY", "other")] [])))
  = Some (client_of "k").
Proof.
  apply (@call_tool_keeps_client Sample.lib (fun _ _ => Raise HTTPStatusError)
           still_clock "search_conversations" [("query", VStr "demo")]
           (mkServer (Some (client_of "k")) [("ATTENTION_API_KEY", "other")] [])
           (client_of "k") eq_refl).
Defined.

(** X20.  The first call made while the environment holds a non-empty
    ASCII key builds the client with that key and then goes on exactly as
    if the client had been there: the client is kept afterwards, also when
    the call names no tool or fails.  With a non-empty key that is not ASCII
    the constructor's [UnicodeEncodeError] comes back instead, nothing is
    sent and the client stays unbuilt. *)
Theorem call_tool_builds_client {L : PyLib}
    (upstream : list get_call -> get_call -> result value) (now : clock)
    (name : string) (arguments : list (string * value)) (st : state) (k : string) :
  _client st = None ->
  AttentionClient.getenv "ATTENTION_API_KEY" (environ st) = Some k -> k <> "" ->
  (is_ascii k = true ->
   exists c,
     AttentionClient.api_key c = k
     /\ AttentionClient.headers (AttentionClient.client c)
        = [("Authorization", "Bearer " ++ k); ("Content-Type", "application/json")]
     /\ call_tool upstream now name arguments st
        = call_tool upstream now name arguments
            (mkServer (Some c) (environ st) (calls st))
     /\ _client (snd (call_tool upstream now name arguments st)) = Some c)
  /\ (is_ascii k = false ->
      call_tool upstream now name arguments st
      = (Error (PyExn UnicodeEncodeError), st)).
Proof.
  intros Hnone Henv Hk.
  pose proof (init_from_environment (environ st)) as Hinit.
  rewrite Henv in Hinit. apply String.eqb_neq in Hk. rewrite Hk in Hinit.
  split; intros Hascii; rewrite Hascii in Hinit.
  - exists (client_of k). split; [reflexivity |]. split; [reflexivity |].
    assert (E : call_tool upstream now name arguments st
                = call_tool upstream now name arguments
                    (mkServer (Some (client_of k)) (environ st) (calls st))).
    { unfold call_tool, get_client. rewrite Hnone, Hinit. reflexivity. }
    split; [exact E |]. rewrite E.
    apply (call_tool_state_with_client upstream now name arguments
             (mkServer (Some (client_of k)) (environ st) (calls st))
             (client_of k) eq_refl).
  - unfold call_tool, get_client. rewrite Hnone, Hinit. reflexivity.
Qed.

Lemma call_tool_builds_client_witness :
  (exists c,
      AttentionClient.api_key c = "k"
      /\ _client (snd (call_tool (L := Sample.lib) (fun _ _ => Ok (VDict [])) still_clock
                         "no_such_tool" [] (idle [("ATTENTION_API_KEY", "k")])))
         = Some c)
  /\ call_tool (L := Sample.lib) (fun _ _ => Ok (VDict [])) still_clock
       "search_conversations" [] (idle [("ATTENTION_API_KEY", String "233"%char "")])
     = (Error (PyExn UnicodeEncodeError),
        idle [("ATTENTION_API_KEY", String "233"%char "")]).
Proof.
  split.
  - destruct (proj1 (@call_tool_builds_client Sample.lib (fun _ _ => Ok (VDict []))
                       still_clock "no_such_tool" [] (idle [("ATTENTION_API_KEY", "k")])
                       "k" eq_refl eq_refl ltac:(discriminate)) eq_refl)
      as (c & Hkey & _ & _ & Hkept).
    exists c. split; assumption.
  - apply (proj2 (@call_tool_builds_client Sample.lib (fun _ _ => Ok (VDict []))
                    still_clock "search_conversations" []
                    (idle [("ATTENTION_API_KEY", String "233"%char "")])
                    (String "233"%char "") eq_refl eq_refl ltac:(discriminate))).
    reflexivity.
Defined.

(** X21.  What the dispatcher asks of the service.  A search goes to
    "/conversations" with page 1, the [size] argument (20 when missing) and
    [detailedTranscript] "false": no other page and no detailed transcript
    can be asked for through the tool.  A lookup goes to "/conversations/"
    followed by the identifier as text, with the [detailed_transcript]
    argument (true when missing) and internal participants never included. *)
Theorem call_tool_requests {L : PyLib}
    (upstream : list get_call -> get_call -> result value) (now : clock)
    (arguments : list (string * value)) (st : state) (c : AttentionClient.t) :
  _client st = Some c ->
  (exists params,
      calls (snd (call_tool upstream now "search_conversations" arguments st))
      = (calls st ++ [mkCall (AttentionClient.client c) "/conversations" params])%list
      /\ firstn 3 params
         = [ ("page", VInt 1);
             ("size", dget arguments "size" (VInt 20));
             ("detailedTranscript", VStr "false") ])
  /\ (forall cid,
        lookup "conversation_id" arguments = Some cid ->
        calls (snd (call_tool upstream now "get_conversation" arguments st))
        = (calls st
           ++ [mkCall (AttentionClient.client c) ("/conversations/" ++ py_str cid)
                 [ ("detailedTranscript",
                    flag_text (dget arguments "detailed_transcript" (VBool true)));
                   ("filter[include_internal_participants]", VStr "false") ]])%list).
Proof.
  intros Hc. split.
  - unfold call_tool, get_client. rewrite Hc.
    cbn [String.eqb Ascii.eqb Bool.eqb]. rewrite respond_state. cbn [calls].
    unfold search_conversations. rewrite client_get_log.
    eexists. split; reflexivity.
  - intros cid Hcid. unfold call_tool, get_client. rewrite Hc.
    cbn [String.eqb Ascii.eqb Bool.eqb]. rewrite Hcid, respond_state. cbn [calls].
    unfold get_conversation. rewrite client_get_log. reflexivity.
Qed.

Lemma call_tool_requests_witness :
  calls (snd (call_tool (L := Sample.lib) (fun _ _ => Ok (VDict [])) still_clock
                "get_conversation" [("conversation_id", VStr "c1")]
                (mkServer (Some (client_of "k")) [] [])))
  = [ mkCall (AttentionClient.client (client_of "k")) "/conversations/c1"
        [ ("detailedTranscript", VStr "true");
          ("filter[include_internal_participants]", VStr "false") ] ].
Proof.
  apply (proj2 (@call_tool_requests Sample.lib (fun _ _ => Ok (VDict [])) still_clock
                  [("conversation_id", VStr "c1")]
                  (mkServer (Some (client_of "k")) [] []) (client_of "k") eq_refl)
           (VStr "c1") eq_refl).
Defined.

(** X22.  The reply of a search is the list formatter applied to what the
    service answered, and the reply of a lookup, for which the arguments
    must hold a [conversation_id], the detail formatter applied to it; an
    error of the service and an exception of the formatter both come back
    as an error reply, after the request has been made. *)
Theorem call_tool_replies {L : PyLib}
    (upstream : list get_call -> get_call -> result value) (now : clock)
    (arguments : list (string * value)) (st : state) (c : AttentionClient.t) :
  _client st = Some c ->
  (exists call,
      calls (snd (call_tool upstream now "search_conversations" arguments st))
      = (calls st ++ [call])%list
      /\ fst (call_tool upstream now "search_conversations" arguments st)
         = match upstream (calls st) call with
           | Ok body =>
               match format_search_results body with
               | Ok text => Text text
               | Raise e => Error (PyExn e)
               end
           | Raise e => Error (PyExn e)
           end)
  /\ (forall cid,
        lookup "conversation_id" arguments = Some cid ->
        exists call,
          calls (snd (call_tool upstream now "get_conversation" arguments st))
          = (calls st ++ [call])%list
          /\ fst (call_tool upstream now "get_conversation" arguments st)
             = match upstream (calls st) call with
               | Ok body =>
                   match format_conversation body with
                   | Ok text => Text text
                   | Raise e => Error (PyExn e)
                   end
               | Raise e => Error (PyExn e)
               end).
Proof.
  intros Hc. split.
  - unfold call_tool, get_client. rewrite Hc.
    cbn [String.eqb Ascii.eqb Bool.eqb].
    eexists. rewrite respond_state. cbn [calls].
    unfold search_conversations. rewrite client_get_log. split; [reflexivity |].
    unfold respond, client_get. cbn [fst snd].
    destruct (upstream (calls st) _) as [body | e]; [| reflexivity].
    destruct (format_search_results body); reflexivity.
  - intros cid Hcid. unfold call_tool, get_client. rewrite Hc.
    cbn [String.eqb Ascii.eqb Bool.eqb]. rewrite Hcid.
    eexists. rewrite respond_state. cbn [calls].
    unfold get_conversation. rewrite client_get_log. split; [reflexivity |].
    unfold respond, client_get. cbn [fst snd].
    destruct (upstream (calls st) _) as [body | e]; [| reflexivity].
    destruct (format_conversation body); reflexivity.
Qed.

Lemma call_tool_replies_witness :
  fst (call_tool (L := Sample.lib) (fun _ _ => Ok (VDict [("data", VList [])]))
         still_clock "search_conversations" [("query", VStr "demo")]
         (mkServer (Some (client_of "k")) [] []))
  = Text "No conversations found."
  /\ fst (call_tool (L := Sample.lib) (fun _ _ => Raise HTTPStatusError)
            still_clock "get_conversation" [("conversation_id", VStr "c1")]
            (mkServer (Some (client_of "k")) [] []))
     = Error (PyExn HTTPStatusError).
Proof.
  split.
  - destruct (proj1 (@call_tool_replies Sample.lib
                       (fun _ _ => Ok (VDict [("data", VList [])])) still_clock
                       [("query", VStr "demo")]
                       (mkServer (Some (client_of "k")) [] []) (client_of "k") eq_refl))
      as (call & _ & Hreply).
    rewrite Hreply. reflexivity.
  - destruct (proj2 (@call_tool_replies Sample.lib
                       (fun _ _ => Raise HTTPStatusError) still_clock
                       [("conversation_id", VStr "c1")]
                       (mkServer (Some (client_of "k")) [] []) (client_of "k") eq_refl)
                (VStr "c1") eq_refl)
      as (call & _ & Hreply).
    rewrite Hreply. reflexivity.
Defined.
